(** * GemPrice: the pricing pipeline and its fallback tiers

  A shallow embedding of the Python services of the GemPrice backend
  ([services/gemini.py], [services/local_storage.py], [services/db.py],
  [services/currency.py], [routers/price.py]) and the properties its
  specification states about them.

  Conventions of the embedding.
  - A Python float is the rational it is equal to ([Q]); a rational that
    is no binary64 number, such as the decimal written in a literal, stands
    for the binary64 number nearest to it ([Py.b64]).  The products,
    quotients, sums and differences of prices, amounts and rates ([Py.mul],
    [Py.div], [Py.add], [Py.sub]) round their operands and their result to
    binary64, ties to even; [round(x, 2)] ([Py.round2]) rounds the exact
    value of the float, as CPython does, and its result is the decimal it
    is printed as.  The sum and the mean of the statistics are taken
    exactly.  Infinities and NaN results of arithmetic are outside the
    model, a missing CSV value (pandas NaN) is a cell of its own.
  - Python strings are [string]s (byte strings); [upper], [isalnum] and
    [strip] act on the ASCII range.
  - Values of dynamic type (a parsed JSON reply, the fields of a stored
    record) are [json] values.
  - An exception is a value of type [exn]; code that may raise returns
    [exn + A], a [try]/[except] is a [match] on that sum.
  - What the third-party libraries do (the generative model, [json.loads],
    pydantic validation, [float] on a string, [pd.read_csv], the HTTP
    client, the document store driver) is an input of the functions that
    call them, and so are the clocks and what becomes of a write to the
    local disk.
  - Shared objects are states passed along: the disk of the local file
    store is a map from paths to files, the currency service carries its
    cache and, for the proofs, the list of the URLs it has requested. *)

From Stdlib Require Import QArith Qround Qabs Qminmax Qpower Lqa ZArith String Ascii List.
From Stdlib Require Import Sorted.
From stdpp Require Import gmap strings list fin_maps pretty.

Local Open Scope string_scope.

(** ** Python primitives *)

Module Py.

Inductive exn_class :=
| Exception_ | ValueError | TypeError | KeyError
| JSONDecodeError | ValidationError | RuntimeError | OverflowError.

Record exn := Raise { class : exn_class; message : string }.

(** [isinstance(e, json.JSONDecodeError)] *)
Definition is_JSONDecodeError (e : exn) : bool :=
  match class e with JSONDecodeError => true | _ => false end.

(** A float as [float(...)] of a table cell gives it: not-a-number or a
    finite value. *)
Inductive pyfloat :=
| Nan
| Float (q : Q).

(** [round(x)], ties to the even neighbour. *)
Definition round_half_even (x : Q) : Z :=
  let f := Qfloor x in
  match (x - inject_Z f ?= 1 # 2)%Q with
  | Lt => f
  | Gt => (f + 1)%Z
  | Eq => if Z.even f then f else (f + 1)%Z
  end.

(** [round(x, 2)] of a float [x]: the decimal with two places nearest to
    the exact value of [x], ties to the even neighbour. *)
Definition round2 (x : Q) : Q :=
  (inject_Z (round_half_even (x * 100)) / 100)%Q.

(** The exponent [e] of a positive rational: [2^e <= q < 2^(e+1)].  The
    difference of the bit lengths of numerator and denominator is [e] or
    [e + 1]. *)
Definition binade (q : Q) : Z :=
  let e := (Z.log2 (Qnum q) - Z.log2 (Zpos (Qden q)))%Z in
  if Qle_bool (2 ^ e) q then e else (e - 1)%Z.

(** The binary64 number nearest to a positive rational, ties to the even
    significand: 53 bits of significand from the leading bit on, and no bit
    below [2^-1074]. *)
Definition b64_pos (q : Q) : Q :=
  let s := Z.max (binade q - 52) (-1074) in
  (inject_Z (round_half_even (q / 2 ^ s)) * 2 ^ s)%Q.

(** The binary64 number a rational stands for. *)
Definition b64 (q : Q) : Q :=
  match Qnum q with
  | Z0 => 0%Q
  | Zpos _ => b64_pos q
  | Zneg _ => (- b64_pos (- q))%Q
  end.

(** [x * y], [x + y], [x - y] and [x / y] on floats, the divisor not 0 *)
Definition mul (x y : Q) : Q := b64 (b64 x * b64 y).
Definition add (x y : Q) : Q := b64 (b64 x + b64 y).
Definition sub (x y : Q) : Q := b64 (b64 x - b64 y).
Definition div (x y : Q) : Q := b64 (b64 x / b64 y).

(** The number is beyond the finite floats: rounded to binary64 it reaches
    [2^1024]. *)
Definition overflows (q : Q) : bool := Qle_bool (2 ^ 1024) (Qabs (b64 q)).

(** The bound [i] of a slice [l[i:...]] or [l[...:i]] on a list of [len]
    elements: a negative bound counts from the end, and every bound is
    clamped to [0 .. len]. *)
Definition slice_index (len i : Z) : Z :=
  if (i <? 0)%Z then Z.max 0 (i + len) else Z.min i len.

(** [l[lo:hi]] *)
Definition slice {A} (l : list A) (lo hi : Z) : list A :=
  let n := Z.of_nat (length l) in
  let a := slice_index n lo in
  let b := slice_index n hi in
  take (Z.to_nat (b - a)) (drop (Z.to_nat a) l).

(** [l[lo:]] *)
Definition slice_from {A} (l : list A) (lo : Z) : list A :=
  drop (Z.to_nat (slice_index (Z.of_nat (length l)) lo)) l.

Definition between (lo hi : nat) (c : ascii) : bool :=
  let n := nat_of_ascii c in (lo <=? n)%nat && (n <=? hi)%nat.

Definition islower (c : ascii) : bool := between 97 122 c.
Definition isupper (c : ascii) : bool := between 65 90 c.
Definition isdigit (c : ascii) : bool := between 48 57 c.

(** [c.isalnum()] *)
Definition isalnum (c : ascii) : bool := islower c || isupper c || isdigit c.

(** [c.isspace()] *)
Definition isspace (c : ascii) : bool := between 9 13 c || between 28 32 c.

Definition upper_char (c : ascii) : ascii :=
  if islower c then ascii_of_nat (nat_of_ascii c - 32) else c.

(** [s.upper()] *)
Fixpoint upper (s : string) : string :=
  match s with
  | EmptyString => EmptyString
  | String c s' => String (upper_char c) (upper s')
  end.

(** [s.replace(c, '')] for a one-character [c] *)
Fixpoint remove_char (c : ascii) (s : string) : string :=
  match s with
  | EmptyString => EmptyString
  | String d s' =>
      if Ascii.eqb c d then remove_char c s' else String d (remove_char c s')
  end.

Fixpoint lstrip (s : string) : string :=
  match s with
  | EmptyString => EmptyString
  | String c s' => if isspace c then lstrip s' else s
  end.

Definition rstrip (s : string) : string := String.rev (lstrip (String.rev s)).

(** [s.strip()] *)
Definition strip (s : string) : string := rstrip (lstrip s).

(** [sub in s] on strings *)
Fixpoint is_substring (sub s : string) : bool :=
  String.prefix sub s
  || match s with
     | EmptyString => false
     | String _ s' => is_substring sub s'
     end.

(** The double quote, for the string literals that hold one. *)
Definition dq : string := String "034"%char EmptyString.

End Py.

(** ** Values of dynamic type *)

#[warnings="-register-all"]
Inductive json :=
| JNull
| JBool (b : bool)
| JNum (q : Q)
| JStr (s : string)
| JArr (items : list json)
| JObj (members : list (string * json)).

(** ** models.py *)

Module Models.

(** [cost_price] and [competitor_price] carry [Field(gt=0)]: the
    constructor [make_request] below is the validating one. *)
Record PriceRecommendationRequest := {
  cost_price : Q;
  competitor_price : option Q;
  inventory_level : string;
  season : string;
  category : string
}.

Record PriceRecommendationResponse := {
  suggested_price : Q;
  reasoning : string;
  confidence_score : option Q
}.

Record User := { sub : string; email : option string; name : option string }.

(** [x > 0], the test behind [Field(gt=0)]; no comparison holds of NaN. *)
Definition gt_0 (x : Py.pyfloat) : option Q :=
  match x with
  | Py.Float q => if Qlt_le_dec 0 q then Some q else None
  | Py.Nan => None
  end.

(** [PriceRecommendationRequest(cost_price=..., ...)] with its validators.
    The messages stand for pydantic's longer ones. *)
Definition make_request (cost : Py.pyfloat) (competitor : option Py.pyfloat)
    (inventory season_ category_ : string)
  : Py.exn + PriceRecommendationRequest :=
  match gt_0 cost with
  | None =>
      inl (Py.Raise Py.ValidationError "cost_price: Input should be greater than 0")
  | Some cost_price_ =>
      let request competitor_price_ :=
        {| cost_price := cost_price_; competitor_price := competitor_price_;
           inventory_level := inventory; season := season_;
           category := category_ |} in
      match competitor with
      | None => inr (request None)
      | Some c =>
          match gt_0 c with
          | Some competitor_price_ => inr (request (Some competitor_price_))
          | None =>
              inl (Py.Raise Py.ValidationError
                     "competitor_price: Input should be greater than 0")
          end
      end
  end.

End Models.

(** ** services/gemini.py *)

Module Gemini.
Import Models.

(** What [self.model.generate_content(prompt)] does: it raises, or gives a
    response object that is falsy, or one with a text ([response.text]
    raising is [Raises] as well: both leave the outer [try] the same way). *)
Inductive generation :=
| Raises (e : Py.exn)
| Falsy
| Response (text : string).

(** The libraries [get_price_recommendation] runs on. *)
Record Runtime := {
  (** the Gemini client *)
  generate_content : string -> generation;
  (** [json.loads] *)
  json_loads : string -> Py.exn + json;
  (** [str(x)] of a float *)
  float_str : Q -> string;
  (** the [TypeError] of [key in v] when [v] is no container *)
  not_iterable : json -> Py.exn;
  (** the [TypeError] of unpacking [v] as keyword arguments when [v] is no
      mapping *)
  not_a_mapping : json -> Py.exn;
  (** [PriceRecommendationResponse] built from the keyword arguments
      [fields]: pydantic's validation *)
  validate_response : list (string * json) -> Py.exn + PriceRecommendationResponse
}.

Section WithRuntime.
Variable rt : Runtime.

Definition optional_str (o : option Q) : string :=
  match o with Some q => float_str rt q | None => "None" end.

Definition build_pricing_prompt (request : PriceRecommendationRequest) : string :=
  "
You are an expert pricing consultant. Analyze the following product data and provide pricing recommendations.

Product Details:
- Cost Price: $" +:+ float_str rt (cost_price request) +:+ "
- Competitor Price: $" +:+ optional_str (competitor_price request) +:+ "
- Inventory Level: " +:+ inventory_level request +:+ "
- Season: " +:+ season request +:+ "
- Category: " +:+ category request +:+ "

Please provide a pricing recommendation with the following considerations:
1. Maintain healthy profit margins (at least 20% above cost)
2. Consider competitive positioning
3. Factor in inventory levels (higher inventory = more aggressive pricing)
4. Adjust for seasonal demand
5. Category-specific pricing strategies

Respond with ONLY a valid JSON object in this exact format:
{
    " +:+ Py.dq +:+ "suggested_price" +:+ Py.dq +:+ ": 99.99,
    " +:+ Py.dq +:+ "reasoning" +:+ Py.dq +:+ ": " +:+ Py.dq
        +:+ "Clear explanation of the pricing decision" +:+ Py.dq +:+ ",
    " +:+ Py.dq +:+ "confidence_score" +:+ Py.dq +:+ ": 0.85
}

No additional text, explanations, or formatting - just the JSON object.
".

(** [key in result] *)
Definition contains (key : string) (result : json) : Py.exn + bool :=
  match result with
  | JObj d => inr (existsb (String.eqb key) (map fst d))
  | JStr s => inr (Py.is_substring key s)
  | JArr l =>
      inr (existsb (fun v => match v with
                             | JStr s => String.eqb key s
                             | _ => false
                             end) l)
  | _ => inl (not_iterable rt result)
  end.

(** [all(key in result for key in keys)]: stops at the first key that is
    absent, and at the first test that raises. *)
Fixpoint all_in (keys : list string) (result : json) : Py.exn + bool :=
  match keys with
  | [] => inr true
  | key :: keys' =>
      match contains key result with
      | inl e => inl e
      | inr false => inr false
      | inr true => all_in keys' result
      end
  end.

Definition required_fields : list string :=
  ["suggested_price"; "reasoning"; "confidence_score"].

(** [PriceRecommendationResponse] built from [result] unpacked as keyword
    arguments *)
Definition unpack_response (result : json) : Py.exn + PriceRecommendationResponse :=
  match result with
  | JObj d => validate_response rt d
  | _ => inl (not_a_mapping rt result)
  end.

(** The handler of [json.JSONDecodeError]. *)
Definition parse_fallback (request : PriceRecommendationRequest)
  : PriceRecommendationResponse :=
  let markup_percentage := 1.5%Q in
  let fallback_price := Py.mul (cost_price request) markup_percentage in
  {| suggested_price := Py.round2 fallback_price;
     reasoning :=
       "Fallback pricing applied due to API parsing error. Applied "
       +:+ float_str rt (Py.sub (Py.mul markup_percentage 100) 100)
       +:+ "% markup on cost price.";
     confidence_score := Some 0.6%Q |}.

(** The handler of [Exception]. *)
Definition emergency_fallback (request : PriceRecommendationRequest) (e : Py.exn)
  : PriceRecommendationResponse :=
  let markup_percentage := 1.4%Q in
  let fallback_price := Py.mul (cost_price request) markup_percentage in
  {| suggested_price := Py.round2 fallback_price;
     reasoning :=
       "Emergency fallback pricing due to API error: " +:+ Py.message e
       +:+ ". Applied " +:+ float_str rt (Py.sub (Py.mul markup_percentage 100) 100)
       +:+ "% markup.";
     confidence_score := Some 0.5%Q |}.

(** The inner [try]: what follows [json.loads] and its
    [except json.JSONDecodeError]. *)
Definition parse_reply (request : PriceRecommendationRequest) (text : string)
  : Py.exn + PriceRecommendationResponse :=
  match json_loads rt (Py.strip text) with
  | inl e =>
      if Py.is_JSONDecodeError e then inr (parse_fallback request) else inl e
  | inr result =>
      match all_in required_fields result with
      | inl e => inl e
      | inr false =>
          inl (Py.Raise Py.ValueError "Missing required fields in Gemini response")
      | inr true => unpack_response result
      end
  end.

(** The body of the outer [try]. *)
Definition ask_model (request : PriceRecommendationRequest)
  : Py.exn + PriceRecommendationResponse :=
  let prompt := build_pricing_prompt request in
  match generate_content rt prompt with
  | Raises e => inl e
  | Falsy => inl (Py.Raise Py.Exception_ "Empty response from Gemini API")
  | Response text =>
      if String.eqb text "" then
        inl (Py.Raise Py.Exception_ "Empty response from Gemini API")
      else parse_reply request text
  end.

Definition get_price_recommendation (request : PriceRecommendationRequest)
  : PriceRecommendationResponse :=
  match ask_model request with
  | inr response => response
  | inl e => emergency_fallback request e
  end.

(** The call to the model fails before any parsing: it raises, or the
    response is missing or has no text. *)
Definition call_fails (request : PriceRecommendationRequest) : Prop :=
  match generate_content rt (build_pricing_prompt request) with
  | Raises _ | Falsy => True
  | Response text => text = ""
  end.

(** The model answers with a text that [json.loads] rejects. *)
Definition reply_unparseable (request : PriceRecommendationRequest) : Prop :=
  exists text e,
    generate_content rt (build_pricing_prompt request) = Response text
    /\ text <> ""
    /\ json_loads rt (Py.strip text) = inl e
    /\ Py.is_JSONDecodeError e = true.

(** The model answers with a JSON object that lacks a required key. *)
Definition reply_lacks_key (request : PriceRecommendationRequest) : Prop :=
  exists text members key,
    generate_content rt (build_pricing_prompt request) = Response text
    /\ text <> ""
    /\ json_loads rt (Py.strip text) = inr (JObj members)
    /\ In key required_fields
    /\ ~ In key (map fst members).

End WithRuntime.

End Gemini.


(** ** services/local_storage.py *)

Module LocalStorage.

(** A stored suggestion, as [json.load] gives it back.  The fields the
    caller supplies are of dynamic type. *)
Record Suggestion := {
  _id : string;
  user_id : string;
  product_data : json;
  suggested_price : json;
  reasoning : json;
  confidence_score : json;
  timestamp : string
}.

(** A file of [local_data/]: one that [json.load] reads back, with its
    [suggestions] list, or one it fails on. *)
Inductive file :=
| Unreadable
| Stored (suggestions : list Suggestion).

(** The two clocks [save_price_suggestion] reads:
    [int(datetime.now().timestamp())] and [datetime.utcnow().isoformat()]. *)
Record Clock := { now_timestamp : Z; utcnow_isoformat : string }.

(** What becomes of the [open(file_path, 'w')] and [json.dump] of
    [save_user_data]: the file is written, or [open] raises and the file is
    as before, or the dump raises midway and leaves a file that no longer
    loads. *)
Inductive write := Written | Refused | Torn.

Definition storage_dir : string := "local_data".

(** [os.path.join(a, b)] *)
Definition path_join (a b : string) : string := a +:+ "/" +:+ b.

(** The characters of [user_id] that are letters, digits, hyphens or
    underscores.  [isalnum] is taken on the ASCII range: the model follows
    the code on the user ids that are plain ASCII ([isascii] below). *)
Fixpoint clean (user_id : string) : string :=
  match user_id with
  | EmptyString => EmptyString
  | String c s =>
      if Py.isalnum c || Ascii.eqb c "-" || Ascii.eqb c "_"
      then String c (clean s) else clean s
  end.

Definition get_user_file_path (user_id : string) : string :=
  let clean_user_id := clean user_id in
  path_join storage_dir ("user_" +:+ clean_user_id +:+ ".json").

(** Any failure to read is answered by the empty list. *)
Definition load_user_data (disk : gmap string file) (user_id : string)
  : list Suggestion :=
  match disk !! get_user_file_path user_id with
  | Some (Stored suggestions) => suggestions
  | Some Unreadable => []
  | None => []
  end.

(** Any failure to write is printed and swallowed. *)
Definition save_user_data (w : write) (disk : gmap string file)
    (user_id : string) (suggestions : list Suggestion) : gmap string file :=
  match w with
  | Written => <[get_user_file_path user_id := Stored suggestions]> disk
  | Refused => disk
  | Torn => <[get_user_file_path user_id := Unreadable]> disk
  end.

(** [suggestion_data.get(key)] *)
Definition get (suggestion_data : gmap string json) (key : string) : json :=
  default JNull (suggestion_data !! key).

Definition new_suggestion (clk : Clock) (suggestions : list Suggestion)
    (user : Models.User) (suggestion_data : gmap string json) : Suggestion :=
  {| _id := "local_" +:+ pretty (length suggestions) +:+ "_"
            +:+ pretty (now_timestamp clk);
     user_id := Models.sub user;
     product_data := default (JObj []) (suggestion_data !! "product_data");
     suggested_price := get suggestion_data "suggested_price";
     reasoning := get suggestion_data "reasoning";
     confidence_score := get suggestion_data "confidence_score";
     timestamp := utcnow_isoformat clk |}.

(** Nothing in the body raises, so the [except ...: raise] around it is not
    taken: the result is the id and the disk after the call. *)
Definition save_price_suggestion (clk : Clock) (w : write)
    (disk : gmap string file) (user : Models.User)
    (suggestion_data : gmap string json) : string * gmap string file :=
  let suggestions := load_user_data disk (Models.sub user) in
  let new_suggestion := new_suggestion clk suggestions user suggestion_data in
  let suggestions := (suggestions ++ [new_suggestion])%list in
  let suggestions := Py.slice_from suggestions (-100) in
  (_id new_suggestion, save_user_data w disk (Models.sub user) suggestions).

(** [suggestions.sort(key=lambda x: x.get('timestamp', ''), reverse=True)]:
    a stable sort, records of equal timestamp keep their order. *)
Fixpoint insert_newest_first (x : Suggestion) (sorted : list Suggestion)
  : list Suggestion :=
  match sorted with
  | [] => [x]
  | y :: sorted' =>
      if String.leb (timestamp y) (timestamp x) then x :: y :: sorted'
      else y :: insert_newest_first x sorted'
  end.

Definition sort_newest_first (suggestions : list Suggestion) : list Suggestion :=
  foldr insert_newest_first [] suggestions.

Definition get_user_suggestions (disk : gmap string file) (user : Models.User)
    (limit skip : Z) : list Suggestion :=
  let suggestions := load_user_data disk (Models.sub user) in
  let suggestions := sort_newest_first suggestions in
  Py.slice suggestions skip (skip + limit).

(** A call of [save_price_suggestion]: the clocks it reads, what becomes of
    its write, the caller and the payload. *)
Record Save := {
  save_clock : Clock;
  save_write : write;
  save_user : Models.User;
  save_data : gmap string json
}.

(** The disk after a sequence of saves, oldest first. *)
Definition run_saves (disk : gmap string file) (saves : list Save)
  : gmap string file :=
  foldl (fun disk s =>
           snd (save_price_suggestion (save_clock s) (save_write s) disk
                  (save_user s) (save_data s)))
        disk saves.

(** No file of the disk holds more than 100 suggestions. *)
Definition capped (disk : gmap string file) : Prop :=
  forall path suggestions,
    disk !! path = Some (Stored suggestions) -> (length suggestions <= 100)%nat.

Record Stats := {
  total_suggestions : Z;
  average_price : Q;
  min_price : Q;
  max_price : Q
}.

(** [type(v).__name__] *)
Definition type_name (v : json) : string :=
  match v with
  | JNull => "NoneType"
  | JBool _ => "bool"
  | JNum _ => "float"
  | JStr _ => "str"
  | JArr _ => "list"
  | JObj _ => "dict"
  end.

Section Stats.
(** [float(s)] on a string; [None] is its [ValueError].  The texts that
    [float] reads as NaN or as an infinity are outside the model. *)
Variable py_float : string -> option Q.

(** [float(price)] on a number: an integer beyond the finite floats
    raises. *)
Definition float_of_number (price : Q) : Py.exn + Q :=
  if Py.overflows price
  then inl (Py.Raise Py.OverflowError "int too large to convert to float")
  else inr price.

(** One round of the loop that fills [prices].  A price that is neither
    [None], a string nor a number skips both [isinstance] branches and is
    appended as it is.  The [ValueError] of [float] is answered by
    [continue]; an [OverflowError] is not caught here. *)
Definition collect_price (prices : list json) (suggestion : Suggestion)
  : Py.exn + list json :=
  match suggested_price suggestion with
  | JNull => inr prices
  | JStr price =>
      let price_str := Py.strip (Py.remove_char "," (Py.remove_char "$" price)) in
      match py_float price_str with
      | Some price => inr (prices ++ [JNum price])%list
      | None => inr prices
      end
  | JNum price =>
      match float_of_number price with
      | inr price => inr (prices ++ [JNum price])%list
      | inl e => inl e
      end
  | JBool b => inr (prices ++ [JNum (if b then 1 else 0)])%list
  | price => inr (prices ++ [price])%list
  end.

(** The loop that fills [prices]. *)
Fixpoint collect_prices (prices : list json) (suggestions : list Suggestion)
  : Py.exn + list json :=
  match suggestions with
  | [] => inr prices
  | suggestion :: suggestions' =>
      match collect_price prices suggestion with
      | inr prices => collect_prices prices suggestions'
      | inl e => inl e
      end
  end.

(** [sum(prices)]: starts from the int 0 and adds from the left.  The sum
    and the mean are taken exactly: how [sum] rounds a sum of floats
    depends on the version of the interpreter. *)
Fixpoint sum_from (acc : Q) (acc_type : string) (prices : list json) : Py.exn + Q :=
  match prices with
  | [] => inr acc
  | JNum q :: prices' => sum_from (acc + q) "float" prices'
  | v :: _ =>
      inl (Py.Raise Py.TypeError
             ("unsupported operand type(s) for +: '" +:+ acc_type +:+ "' and '"
              +:+ type_name v +:+ "'"))
  end.

Definition sum (prices : list json) : Py.exn + Q := sum_from 0 "int" prices.

(** The floats of [prices].  [min] and [max] run once [sum] has returned,
    and [sum] returns only when every price is a float. *)
Definition floats (prices : list json) : list Q :=
  omap (fun v => match v with JNum q => Some q | _ => None end) prices.

(** [min(prices)]: the first of the least elements. *)
Definition min (prices : list Q) : Q :=
  match prices with
  | [] => 0
  | q :: prices' => foldl Qmin q prices'
  end.

(** [max(prices)]: the first of the greatest elements. *)
Definition max (prices : list Q) : Q :=
  match prices with
  | [] => 0
  | q :: prices' => foldl Qmax q prices'
  end.

(** What the body raises passes the [except Exception] that prints it and
    raises it again. *)
Definition get_suggestions_stats (disk : gmap string file) (user : Models.User)
  : Py.exn + Stats :=
  let suggestions := load_user_data disk (Models.sub user) in
  match suggestions with
  | [] =>
      inr {| total_suggestions := 0; average_price := 0;
             min_price := 0; max_price := 0 |}
  | _ =>
      match collect_prices [] suggestions with
      | inl e => inl e
      | inr [] =>
          inr {| total_suggestions := Z.of_nat (length suggestions);
                 average_price := 0; min_price := 0; max_price := 0 |}
      | inr prices =>
          match sum prices with
          | inl e => inl e
          | inr total =>
              inr {| total_suggestions := Z.of_nat (length suggestions);
                     average_price := total / inject_Z (Z.of_nat (length prices));
                     min_price := min (floats prices);
                     max_price := max (floats prices) |}
          end
      end
  end.

(** The statistics as the specification words them: each stored price is
    coerced to a number, a string after the dollar sign, the commas and the
    surrounding blanks are removed; what cannot be coerced is skipped; the
    total counts the suggestions, the mean, least and greatest are over the
    coerced prices, and all are 0 when there is none. *)
Definition spec_coerce (price : json) : option Q :=
  match price with
  | JNum q => Some q
  | JBool b => Some (if b then 1 else 0)%Q
  | JStr s => py_float (Py.strip (Py.remove_char "," (Py.remove_char "$" s)))
  | JNull | JArr _ | JObj _ => None
  end.

Definition spec_prices (suggestions : list Suggestion) : list Q :=
  omap (fun s => spec_coerce (suggested_price s)) suggestions.

Definition spec_stats (suggestions : list Suggestion) : Stats :=
  match suggestions, spec_prices suggestions with
  | [], _ =>
      {| total_suggestions := 0; average_price := 0;
         min_price := 0; max_price := 0 |}
  | _, [] =>
      {| total_suggestions := Z.of_nat (length suggestions);
         average_price := 0; min_price := 0; max_price := 0 |}
  | _, prices =>
      {| total_suggestions := Z.of_nat (length suggestions);
         average_price :=
           (foldl Qplus 0 prices / inject_Z (Z.of_nat (length prices)))%Q;
         min_price := min prices;
         max_price := max prices |}
  end.

(** The stored price is [None], a number within the finite floats, a
    boolean or a string. *)
Definition scalar_price (s : Suggestion) : Prop :=
  match suggested_price s with
  | JArr _ | JObj _ => False
  | JNum price => Py.overflows price = false
  | _ => True
  end.

End Stats.

(** The characters [get_user_file_path] keeps of a user id. *)
Definition kept (c : ascii) : bool :=
  Py.isalnum c || Ascii.eqb c "-" || Ascii.eqb c "_".

(** [user_id.isascii()] *)
Definition isascii (user_id : string) : bool :=
  forallb (fun c => (nat_of_ascii c <? 128)%nat) (list_ascii_of_string user_id).

(** [a] may stand before [b] in a listing: its timestamp is not below the
    timestamp of [b], as strings. *)
Definition not_older (a b : Suggestion) : Prop :=
  String.leb (timestamp b) (timestamp a) = true.

End LocalStorage.

(** ** services/db.py *)

Module Db.

(** A document of the [price_suggestions] collection. *)
Record Document := {
  user_id : string;
  product_data : json;
  suggested_price : json;
  reasoning : json;
  confidence_score : json;
  timestamp : string
}.

(** What [collection.insert_one(document)] does: the document is stored
    under the [inserted_id] the driver reports, or the call raises and the
    collection is as before. *)
Inductive insert :=
| Inserted (inserted_id : string)
| InsertRaises (e : Py.exn).

(** The two backends: [db_service.database] ([None] after a failed or
    missing connection, else the documents of the collection with their
    ids) and the directory of [local_storage]. *)
Record Backends := {
  database : option (list (string * Document));
  disk : gmap string LocalStorage.file
}.

Definition save_price_suggestion (clk : LocalStorage.Clock) (ins : insert)
    (w : LocalStorage.write) (st : Backends) (user : Models.User)
    (suggestion_data : gmap string json) : string * Backends :=
  let local_save :=
    let (id, disk') :=
      LocalStorage.save_price_suggestion clk w (disk st) user suggestion_data in
    (id, {| database := database st; disk := disk' |}) in
  match database st with
  | None => local_save
  | Some collection =>
      let document :=
        {| user_id := Models.sub user;
           product_data := default (JObj []) (suggestion_data !! "product_data");
           suggested_price := LocalStorage.get suggestion_data "suggested_price";
           reasoning := LocalStorage.get suggestion_data "reasoning";
           confidence_score := LocalStorage.get suggestion_data "confidence_score";
           timestamp := LocalStorage.utcnow_isoformat clk |} in
      match ins with
      | Inserted inserted_id =>
          (inserted_id,
           {| database := Some (collection ++ [(inserted_id, document)])%list;
              disk := disk st |})
      | InsertRaises e => local_save
      end
  end.

(** [x if ok else raise], then [f]: the rest of a [try] body runs only when
    what precedes it has not raised. *)
Definition and_then {A B} (x : Py.exn + A) (f : A -> Py.exn + B) : Py.exn + B :=
  match x with
  | inl e => inl e
  | inr a => f a
  end.

(** [self.database[self.collection_name]] when [self.database] is [None] *)
Definition not_subscriptable : Py.exn :=
  Py.Raise Py.TypeError "'NoneType' object is not subscriptable".

Definition ishex (c : ascii) : bool :=
  Py.isdigit c || Py.between 97 102 c || Py.between 65 70 c.

(** The blanks [bytes.fromhex] skips. *)
Definition is_ascii_space (c : ascii) : bool :=
  Py.between 9 13 c || Ascii.eqb c " ".

(** [bytes.fromhex(s)] does not raise: [s] is made of pairs of hexadecimal
    digits, with blanks between the pairs or around them. *)
Fixpoint fromhex_ok (s : string) : bool :=
  match s with
  | EmptyString => true
  | String c s' =>
      if is_ascii_space c then fromhex_ok s'
      else if ishex c then
        match s' with
        | String d s'' => ishex d && fromhex_ok s''
        | EmptyString => false
        end
      else false
  end.

(** [ObjectId.is_valid(oid)] on a string: 24 characters that
    [bytes.fromhex] takes. *)
Definition is_valid (oid : string) : bool :=
  (String.length oid =? 24)%nat && fromhex_ok oid.

Definition lower_char (c : ascii) : ascii :=
  if Py.isupper c then ascii_of_nat (nat_of_ascii c + 32) else c.

(** [str(ObjectId(oid))] for a valid [oid]: the digits read by
    [bytes.fromhex], written back in lower case. *)
Fixpoint object_id (oid : string) : string :=
  match oid with
  | EmptyString => EmptyString
  | String c s =>
      if is_ascii_space c then object_id s else String (lower_char c) (object_id s)
  end.

(** A document as the reading functions hand it out, its [_id] a string. *)
Definition to_suggestion (d : string * Document) : LocalStorage.Suggestion :=
  {| LocalStorage._id := fst d;
     LocalStorage.user_id := user_id (snd d);
     LocalStorage.product_data := product_data (snd d);
     LocalStorage.suggested_price := suggested_price (snd d);
     LocalStorage.reasoning := reasoning (snd d);
     LocalStorage.confidence_score := confidence_score (snd d);
     LocalStorage.timestamp := timestamp (snd d) |}.

(** What the cursor of [find(...).sort(...).skip(skip).limit(limit)] does:
    it raises, or yields documents. *)
Inductive find :=
| FindRaises (e : Py.exn)
| Found (documents : list (string * Document)).

Definition get_user_suggestions (found : find) (st : Backends)
    (user : Models.User) (limit skip : Z) : list LocalStorage.Suggestion :=
  match database st with
  | None => LocalStorage.get_user_suggestions (disk st) user limit skip
  | Some collection =>
      match found with
      | Found documents => map to_suggestion documents
      | FindRaises e => LocalStorage.get_user_suggestions (disk st) user limit skip
      end
  end.

(** Whether the driver answers [find_one] or raises. *)
Inductive find_one :=
| FindOneRaises (e : Py.exn)
| FindOneAnswers.

(** The filter of [get_suggestion_by_id]: the id and the owner. *)
Definition matches (suggestion_id : string) (user : Models.User)
    (d : string * Document) : bool :=
  String.eqb (fst d) (object_id suggestion_id)
  && String.eqb (user_id (snd d)) (Models.sub user).

(** The collection is the list of the documents stored, oldest first;
    [find_one] gives the first that passes the filter.  Every exception is
    printed and raised again. *)
Definition get_suggestion_by_id (answer : find_one) (st : Backends)
    (suggestion_id : string) (user : Models.User)
  : Py.exn + option LocalStorage.Suggestion :=
  match database st with
  | None => inl not_subscriptable
  | Some collection =>
      if negb (is_valid suggestion_id) then inr None
      else
        match answer with
        | FindOneRaises e => inl e
        | FindOneAnswers =>
            inr (to_suggestion <$> List.find (matches suggestion_id user) collection)
        end
  end.

(** What [collection.insert_many(documents)] does: it stores the documents
    under the ids it reports, or it raises after having stored the first
    documents under the ids [written]. *)
Inductive insert_many :=
| InsertedMany (inserted_ids : list string)
| InsertManyRaises (e : Py.exn) (written : list string).

(** [suggestion[key]] *)
Definition getitem (suggestion : gmap string json) (key : string) : Py.exn + json :=
  match suggestion !! key with
  | Some v => inr v
  | None => inl (Py.Raise Py.KeyError ("'" +:+ key +:+ "'"))
  end.

(** The document of a suggestion of the batch; [now] is what
    [datetime.utcnow()] reads for it. *)
Definition batch_document (user : Models.User) (now : string)
    (suggestion : gmap string json) : Py.exn + Document :=
  and_then (getitem suggestion "product_data") (fun product_data_ =>
  and_then (getitem suggestion "suggested_price") (fun suggested_price_ =>
  and_then (getitem suggestion "reasoning") (fun reasoning_ =>
  inr {| user_id := Models.sub user;
         product_data := product_data_;
         suggested_price := suggested_price_;
         reasoning := reasoning_;
         confidence_score := LocalStorage.get suggestion "confidence_score";
         timestamp := now |}))).

(** The loop that fills [documents], from the suggestion at [index] on;
    [utcnow i] is the reading of the clock for the suggestion at [i]. *)
Fixpoint batch_documents (user : Models.User) (utcnow : nat -> string)
    (index : nat) (suggestions : list (gmap string json))
  : Py.exn + list Document :=
  match suggestions with
  | [] => inr []
  | suggestion :: suggestions' =>
      and_then (batch_document user (utcnow index) suggestion) (fun document =>
      and_then (batch_documents user utcnow (S index) suggestions') (fun documents =>
      inr (document :: documents)))
  end.

(** No fallback here: every exception is printed and raised again.  The
    result is what the call returns or raises, and the backends after it. *)
Definition batch_save_suggestions (utcnow : nat -> string) (ins : insert_many)
    (st : Backends) (user : Models.User) (suggestions : list (gmap string json))
  : (Py.exn + list string) * Backends :=
  match database st with
  | None => (inl not_subscriptable, st)
  | Some collection =>
      match batch_documents user utcnow 0 suggestions with
      | inl e => (inl e, st)
      | inr [] =>
          (inl (Py.Raise Py.TypeError "documents must be a non-empty list"), st)
      | inr documents =>
          match ins with
          | InsertedMany inserted_ids =>
              (inr inserted_ids,
               {| database := Some (collection ++ zip inserted_ids documents)%list;
                  disk := disk st |})
          | InsertManyRaises e written =>
              (inl e,
               {| database := Some (collection ++ zip written documents)%list;
                  disk := disk st |})
          end
      end
  end.

End Db.

(** ** services/currency.py *)

Module Currency.

(** A value of the dictionary [convert_currency] returns beside the amount. *)
Inductive info :=
| Rate (rate : Q)
| Text (text : string).

(** What [client.get(url)] and [response.json()] give: the request raises,
    or a response arrives with its status code and a body whose [rates]
    entry is read ([None]: the body has no such entry), or whose decoding
    raises. *)
Inductive fetch :=
| FetchRaises (e : Py.exn)
| Status (status_code : Z) (rates : Py.exn + option (gmap string Q)).

Record Service := {
  cache : gmap string (gmap string Q);
  cache_expiry : gmap string Z;
  (** the URLs requested so far, oldest first *)
  requested : list string
}.

Definition base_url : string := "https://api.exchangerate-api.com/v4/latest".

(** [timedelta(hours=1)], in seconds *)
Definition cache_duration : Z := 3600.

Definition fallback_rates : gmap string Q :=
  list_to_map
    [("USD", 1.0%Q); ("EUR", 0.85%Q); ("GBP", 0.73%Q); ("JPY", 110.0%Q);
     ("CAD", 1.25%Q); ("AUD", 1.35%Q); ("CHF", 0.92%Q); ("CNY", 6.45%Q);
     ("INR", 74.0%Q); ("KRW", 1180.0%Q)].

Definition _get_fallback_rates (base_currency : string) : gmap string Q :=
  if String.eqb base_currency "USD" then fallback_rates
  else
    let base_rate := default 1.0%Q (fallback_rates !! base_currency) in
    (fun rate => Py.div rate base_rate) <$> fallback_rates.

(** The fallback rate from a listed base to a listed currency, from their
    USD rates: the USD rate of the currency for the base USD, its quotient
    by the USD rate of the base for another base. *)
Definition cross_rate (base : string) (base_rate rate : Q) : Q :=
  if String.eqb base "USD" then rate else Py.div rate base_rate.

(** The live fetch gives no rates: the request raises, the status is not
    200, or the body does not decode. *)
Definition fetch_failed (f : fetch) : Prop :=
  match f with
  | FetchRaises _ => True
  | Status status_code body => status_code <> 200%Z \/ exists e, body = inl e
  end.

Section WithClient.
(** The HTTP client, by URL, and [datetime.now()] in seconds. *)
Variable http_get : string -> fetch.
Variable now : Z.

(** The test that guards the cache: the key is in both dictionaries and the
    entry has not expired. *)
Definition cached (self : Service) (cache_key : string) : option (gmap string Q) :=
  match cache self !! cache_key, cache_expiry self !! cache_key with
  | Some rates, Some expiry => if (now <? expiry)%Z then Some rates else None
  | _, _ => None
  end.

Definition get_exchange_rates (self : Service) (base_currency : string)
  : gmap string Q * Service :=
  let cache_key := "rates_" +:+ base_currency in
  match cached self cache_key with
  | Some rates => (rates, self)
  | None =>
      let url := base_url +:+ "/" +:+ base_currency in
      let self := {| cache := cache self; cache_expiry := cache_expiry self;
                     requested := (requested self ++ [url])%list |} in
      match http_get url with
      | Status status_code body =>
          if (status_code =? 200)%Z then
            match body with
            | inr data =>
                let rates := default ∅ data in
                (rates,
                 {| cache := <[cache_key := rates]> (cache self);
                    cache_expiry :=
                      <[cache_key := (now + cache_duration)%Z]> (cache_expiry self);
                    requested := requested self |})
            | inl e => (_get_fallback_rates base_currency, self)
            end
          else (_get_fallback_rates base_currency, self)
      | FetchRaises e => (_get_fallback_rates base_currency, self)
      end
  end.

(** Nothing in the body raises on finite amounts and rates, so the handler
    that answers an exception with the amount and an [error] entry is not
    taken. *)
Definition convert_currency (self : Service) (amount : Q)
    (from_currency to_currency : string)
  : (Q * gmap string info) * Service :=
  let pair := from_currency +:+ "_to_" +:+ to_currency in
  if String.eqb (Py.upper from_currency) (Py.upper to_currency) then
    ((amount, {[pair := Rate 1.0%Q]}), self)
  else
    let (rates, self) := get_exchange_rates self (Py.upper from_currency) in
    match rates !! Py.upper to_currency with
    | Some conversion_rate =>
        let converted_amount := Py.round2 (Py.mul amount conversion_rate) in
        let source :=
          if decide (is_Some (cache self !! ("rates_" +:+ from_currency)))
          then "live_api" else "fallback" in
        ((converted_amount,
          <["source" := Text source]> {[pair := Rate conversion_rate]}), self)
    | None =>
        ((amount,
          {["error" := Text ("Currency " +:+ to_currency +:+ " not supported")]}),
         self)
    end.

End WithClient.

End Currency.

(** ** routers/price.py *)

Module Router.
Import Models.

(** A cell of a row as [df.iterrows()] hands it over: a missing value, a
    float, the text of the field, or an integer. *)
Inductive cell :=
| NaN
| Number (q : Q)
| Field (s : string)
| Integer (n : Z).

(** A label of the index of the table.  [pd.read_csv] labels the rows with
    their positions 0, 1, ... when they have as many fields as the header,
    and with their first field when they have one field more; such a label
    is an integer, a float or a text.  Of a label that is no number (a
    text, the tuple of a MultiIndex) the model keeps the [TypeError] that
    [index + 1] raises on it. *)
Inductive label :=
| IntLabel (i : Z)
| FloatLabel (x : Q)
| OtherLabel (raised : Py.exn).

Record DataFrame := {
  columns : list string;
  (** the rows with their labels, in the order of [df.iterrows()] *)
  rows : list (label * gmap string cell)
}.



(** [index + 1] *)
Definition add_1 (index : label) : Py.exn + Q :=
  match index with
  | IntLabel i => inr (inject_Z (i + 1))
  | FloatLabel x => inr (Py.add x 1)
  | OtherLabel raised => inl raised
  end.

(** What [pd.read_csv] does with the upload. *)
Inductive read_csv :=
| EmptyDataError
| ParserError
| ReadRaises (e : Py.exn)
| Frame (df : DataFrame).

(** An entry of [results]. *)
Inductive result :=
| Success (row_number : Q) (product_data : PriceRecommendationRequest)
    (suggested_price : Q) (reasoning : string) (confidence_score : option Q)
| Failed (row_number : Q) (product_data : gmap string cell) (error : string).



Record CSVUploadResponse := {
  total_products : Z;
  successful_predictions : Z;
  failed_predictions : Z;
  results : list result
}.

Record HTTPException := { status_code : Z; detail : string }.

(** [str(e)] of an [HTTPException] *)
Definition http_str (e : HTTPException) : string :=
  pretty (status_code e) +:+ ": " +:+ detail e.

(** [s.endswith(suffix)] *)
Definition endswith (s suffix : string) : bool :=
  String.prefix (String.rev suffix) (String.rev s).

(** [repr] of a list of plain strings *)
Definition repr_list (l : list string) : string :=
  "[" +:+ String.concat ", " (map (fun s => "'" +:+ s +:+ "'") l) +:+ "]".

Definition required_columns : list string :=
  ["cost_price"; "inventory_level"; "season"; "category"].

Definition bind {A B} (x : Py.exn + A) (f : A -> Py.exn + B) : Py.exn + B :=
  match x with
  | inl e => inl e
  | inr a => f a
  end.

Section Upload.
Variable rt : Gemini.Runtime.
(** [float(s)] on a string; [None] is its [ValueError]. *)
Variable py_float : string -> option Q.

(** [row[column]] *)
Definition getitem (row : gmap string cell) (column : string) : Py.exn + cell :=
  match row !! column with
  | Some c => inr c
  | None => inl (Py.Raise Py.KeyError ("'" +:+ column +:+ "'"))
  end.

(** [float(c)] *)
Definition float (c : cell) : Py.exn + Py.pyfloat :=
  match c with
  | NaN => inr Py.Nan
  | Number q => inr (Py.Float q)
  | Field s =>
      match py_float s with
      | Some q => inr (Py.Float q)
      | None =>
          inl (Py.Raise Py.ValueError
                 ("could not convert string to float: '" +:+ s +:+ "'"))
      end
  | Integer n => inr (Py.Float (Py.b64 (inject_Z n)))
  end.

(** [str(c)] *)
Definition str (c : cell) : string :=
  match c with
  | NaN => "nan"
  | Number q => Gemini.float_str rt q
  | Field s => s
  | Integer n => pretty n
  end.

(** [pd.notna(row.get(column))] *)
Definition notna (row : gmap string cell) (column : string) : bool :=
  match row !! column with
  | None => false
  | Some NaN => false
  | Some _ => true
  end.

(** The request built from a row, its arguments evaluated in order. *)
Definition parse_row (row : gmap string cell) : Py.exn + PriceRecommendationRequest :=
  bind (bind (getitem row "cost_price") float) (fun cost =>
  bind (if notna row "competitor_price"
        then bind (bind (getitem row "competitor_price") float)
                  (fun c => inr (Some c))
        else inr None) (fun competitor =>
  bind (getitem row "inventory_level") (fun inventory =>
  bind (getitem row "season") (fun season_ =>
  bind (getitem row "category") (fun category_ =>
  make_request cost competitor (str inventory) (str season_) (str category_)))))).

(** A row fails when building its request raises. *)
Definition row_fails (row : gmap string cell) : bool :=
  match parse_row row with
  | inl _ => true
  | inr _ => false
  end.

(** The number of rows that fail. *)
Definition count_failing (rows_ : list (label * gmap string cell)) : nat :=
  length (List.filter (fun r => row_fails (snd r)) rows_).

(** The entry of [results] a row is due under the number [row_number]. *)
Definition entry_of (row_number : Q) (row : gmap string cell) : result :=
  match parse_row row with
  | inr request_data =>
      let recommendation := Gemini.get_price_recommendation rt request_data in
      Success row_number request_data (suggested_price recommendation)
        (reasoning recommendation) (confidence_score recommendation)
  | inl e => Failed row_number row (Py.message e)
  end.

(** The counters and lists the loop over the rows updates. *)
Record Tally := {
  successful : Z;
  failed : Z;
  entries : list result;
  suggestions_to_save : list (PriceRecommendationRequest * PriceRecommendationResponse)
}.

(** The body of the loop, for the row labelled [index].  The [try] builds
    the request, asks for the recommendation and computes [index + 1] for
    the entry; its handler computes [index + 1] again, outside any [try]:
    what [index + 1] raises leaves the loop. *)
Definition process_row (t : Tally) (index : label) (row : gmap string cell)
  : Py.exn + Tally :=
  let attempt :=
    bind (parse_row row) (fun request_data =>
    let recommendation := Gemini.get_price_recommendation rt request_data in
    bind (add_1 index) (fun row_number =>
    inr (request_data, recommendation, row_number))) in
  match attempt with
  | inr (request_data, recommendation, row_number) =>
      let result :=
        Success row_number request_data (suggested_price recommendation)
          (reasoning recommendation) (confidence_score recommendation) in
      inr {| successful := successful t + 1;
             failed := failed t;
             entries := (entries t ++ [result])%list;
             suggestions_to_save :=
               (suggestions_to_save t ++ [(request_data, recommendation)])%list |}
  | inl e =>
      bind (add_1 index) (fun row_number =>
      let result := Failed row_number row (Py.message e) in
      inr {| successful := successful t;
             failed := failed t + 1;
             entries := (entries t ++ [result])%list;
             suggestions_to_save := suggestions_to_save t |})
  end.

(** [for index, row in df.iterrows()] *)
Fixpoint iterrows (rows_ : list (label * gmap string cell)) (t : Tally)
  : Py.exn + Tally :=
  match rows_ with
  | [] => inr t
  | (index, row) :: rows' => bind (process_row t index row) (iterrows rows')
  end.

(** The handler endpoint.  The batch save that follows the loop has its
    errors printed and dropped and does not reach the response.  The
    [HTTPException] of the missing columns is raised inside the [try] whose
    last handler catches every [Exception], and so is what leaves the
    loop. *)
Definition upload_csv (filename : string) (contents : read_csv)
  : HTTPException + CSVUploadResponse :=
  if negb (endswith filename ".csv") then
    inl {| status_code := 400; detail := "File must be a CSV file" |}
  else
    match contents with
    | EmptyDataError =>
        inl {| status_code := 400; detail := "The CSV file is empty" |}
    | ParserError =>
        inl {| status_code := 400;
               detail := "Error parsing CSV file. Please check the file format." |}
    | ReadRaises e =>
        inl {| status_code := 500;
               detail := "Error processing CSV file: " +:+ Py.message e |}
    | Frame df =>
        let missing_columns :=
          List.filter (fun col => negb (existsb (String.eqb col) (columns df)))
            required_columns in
        match missing_columns with
        | _ :: _ =>
            let raised :=
              {| status_code := 400;
                 detail := "Missing required columns: " +:+ repr_list missing_columns |} in
            inl {| status_code := 500;
                   detail := "Error processing CSV file: " +:+ http_str raised |}
        | [] =>
            let total_products := Z.of_nat (length (rows df)) in
            match iterrows (rows df)
                    {| successful := 0; failed := 0; entries := [];
                       suggestions_to_save := [] |} with
            | inr t =>
                inr {| total_products := total_products;
                       successful_predictions := successful t;
                       failed_predictions := failed t;
                       results := entries t |}
            | inl e =>
                inl {| status_code := 500;
                       detail := "Error processing CSV file: " +:+ Py.message e |}
            end
        end
    end.

End Upload.

(** [request.dict()], as the dictionary stored under [product_data] *)
Definition product_data_of (request : PriceRecommendationRequest) : json :=
  JObj [("cost_price", JNum (cost_price request));
        ("competitor_price",
         match competitor_price request with Some c => JNum c | None => JNull end);
        ("inventory_level", JStr (inventory_level request));
        ("season", JStr (season request));
        ("category", JStr (category request))].

(** The dictionary both saving endpoints build from a request and its
    recommendation. *)
Definition suggestion_data_of (request : PriceRecommendationRequest)
    (recommendation : PriceRecommendationResponse) : gmap string json :=
  {[ "product_data" := product_data_of request;
     "suggested_price" := JNum (suggested_price recommendation);
     "reasoning" := JStr (reasoning recommendation);
     "confidence_score" :=
       match confidence_score recommendation with
       | Some c => JNum c
       | None => JNull
       end ]}.

Section Endpoints.
Variable rt : Gemini.Runtime.

(** [POST /recommend-price].  [get_price_recommendation] raises nothing, so
    the handler that answers 500 is not taken. *)
Definition recommend_price (request : PriceRecommendationRequest)
  : HTTPException + PriceRecommendationResponse :=
  inr (Gemini.get_price_recommendation rt request).

(** [POST /recommend-price-auth]: the recommendation, and the backends after
    it has been saved. *)
Definition recommend_price_authenticated (clk : LocalStorage.Clock)
    (ins : Db.insert) (w : LocalStorage.write) (st : Db.Backends)
    (request : PriceRecommendationRequest) (current_user : User)
  : (HTTPException + PriceRecommendationResponse) * Db.Backends :=
  let recommendation := Gemini.get_price_recommendation rt request in
  let suggestion_data := suggestion_data_of request recommendation in
  let saved := Db.save_price_suggestion clk ins w st current_user suggestion_data in
  (inr recommendation, snd saved).

(** [GET /history/{suggestion_id}]: the 404 raised inside the [try] passes
    the handler of [HTTPException] unchanged, any other exception is
    answered by 500. *)
Definition get_suggestion_detail (answer : Db.find_one) (st : Db.Backends)
    (suggestion_id : string) (current_user : User)
  : HTTPException + LocalStorage.Suggestion :=
  match Db.get_suggestion_by_id answer st suggestion_id current_user with
  | inl e =>
      inl {| status_code := 500;
             detail := "Error retrieving suggestion details: " +:+ Py.message e |}
  | inr None => inl {| status_code := 404; detail := "Suggestion not found" |}
  | inr (Some suggestion) => inr suggestion
  end.

Variable py_float : string -> option Q.

(** The step of [upload_csv] between the loop and the response: the
    suggestions of the rows that succeeded go to [batch_save_suggestions],
    if there is any, and what that call raises is printed and dropped. *)
Definition save_batch (utcnow : nat -> string) (ins : Db.insert_many)
    (st : Db.Backends) (current_user : User)
    (to_save : list (PriceRecommendationRequest * PriceRecommendationResponse))
  : Db.Backends :=
  match to_save with
  | [] => st
  | _ =>
      snd (Db.batch_save_suggestions utcnow ins st current_user
             (map (fun p => suggestion_data_of (fst p) (snd p)) to_save))
  end.

(** What the loop of [upload_csv] leaves in [suggestions_to_save], when it
    is not left by an exception. *)
Definition to_save_of (df : DataFrame)
  : list (PriceRecommendationRequest * PriceRecommendationResponse) :=
  match iterrows rt py_float (rows df)
          {| successful := 0; failed := 0; entries := [];
             suggestions_to_save := [] |} with
  | inr t => suggestions_to_save t
  | inl _ => []
  end.

(** [POST /upload-csv] with its effect on the backends: the response of
    [upload_csv], and the backends after the batch save. *)
Definition upload_csv_and_save (utcnow : nat -> string) (ins : Db.insert_many)
    (st : Db.Backends) (current_user : User) (filename : string)
    (contents : read_csv)
  : (HTTPException + CSVUploadResponse) * Db.Backends :=
  match upload_csv rt py_float filename contents, contents with
  | inr response, Frame df =>
      (inr response, save_batch utcnow ins st current_user (to_save_of df))
  | answer, _ => (answer, st)
  end.

End Endpoints.

End Router.

(** ** Stand-ins for the libraries

    Small instances of the library inputs, for running the model on
    concrete requests. *)

Module Scenario.
Import Models.

(** A reader of plain decimal integers, for [float] on such strings. *)
Fixpoint digits (acc : Z) (s : string) : option Z :=
  match s with
  | EmptyString => Some acc
  | String c s' =>
      if Py.isdigit c
      then digits (10 * acc + Z.of_nat (nat_of_ascii c - 48)) s'
      else None
  end.

Definition float_of_digits (s : string) : option Q :=
  match s with
  | EmptyString => None
  | _ => inject_Z <$> digits 0 s
  end.

(** The replies of the model service in the scenarios below, whatever the
    prompt. *)
Definition runtime (reply : Gemini.generation) : Gemini.Runtime :=
  {| Gemini.generate_content := fun _ => reply;
     Gemini.json_loads := fun text =>
       if String.eqb text "{}" then inr (JObj [])
       else inl (Py.Raise Py.JSONDecodeError "Expecting value: line 1 column 1 (char 0)");
     Gemini.float_str := fun q => pretty (Qfloor q) +:+ ".0";
     Gemini.not_iterable := fun v =>
       Py.Raise Py.TypeError "argument is not iterable";
     Gemini.not_a_mapping := fun v =>
       Py.Raise Py.TypeError "argument after ** must be a mapping";
     Gemini.validate_response := fun fields =>
       inl (Py.Raise Py.ValidationError "validation error") |}.

(** The service cannot be reached. *)
Definition unreachable : Gemini.Runtime :=
  runtime (Gemini.Raises (Py.Raise Py.RuntimeError "503 Service Unavailable")).


(** The service answers with an empty JSON object. *)
Definition empty_object : Gemini.Runtime :=
  runtime (Gemini.Response " {} ").

Definition request (cost : Q) : PriceRecommendationRequest :=
  {| cost_price := cost; competitor_price := None; inventory_level := "high";
     season := "summer"; category := "skincare" |}.

Definition user : User :=
  {| sub := "auth0|6512"; email := None; name := None |}.

Definition clock : LocalStorage.Clock :=
  {| LocalStorage.now_timestamp := 1700000000;
     LocalStorage.utcnow_isoformat := "2023-11-14T22:13:20.000123" |}.

Definition suggestion_data (price : json) : gmap string json :=
  {[ "suggested_price" := price; "reasoning" := JStr "seasonal demand" ]}.

Definition row (cost : Router.cell) : gmap string Router.cell :=
  {[ "cost_price" := cost; "inventory_level" := Router.Field "high";
     "season" := Router.Field "summer"; "category" := Router.Field "skincare" ]}.

(** A table of three rows whose second has no cost. *)
Definition table : Router.DataFrame :=
  {| Router.columns := ["cost_price"; "inventory_level"; "season"; "category"];
     Router.rows :=
       [(Router.IntLabel 0, row (Router.Number 10));
        (Router.IntLabel 1, row Router.NaN);
        (Router.IntLabel 2, row (Router.Field "20"))] |}.




(** No connection to the primary store, nothing on the local disk. *)
Definition local_only : Db.Backends :=
  {| Db.database := None; Db.disk := ∅ |}.

(** The rate service cannot be reached. *)
Definition offline (url : string) : Currency.fetch :=
  Currency.FetchRaises (Py.Raise Py.RuntimeError "All connection attempts failed").

(** The currency service as [__init__] leaves it. *)
Definition fresh : Currency.Service :=
  {| Currency.cache := ∅; Currency.cache_expiry := ∅; Currency.requested := [] |}.

(** The disk after the saves of the given prices by [user], in order. *)
Definition disk_with (prices : list json) : gmap string LocalStorage.file :=
  LocalStorage.run_saves ∅
    (map (fun price =>
            {| LocalStorage.save_clock := clock;
               LocalStorage.save_write := LocalStorage.Written;
               LocalStorage.save_user := user;
               LocalStorage.save_data := suggestion_data price |}) prices).

(** A hundred saves by the same user. *)
Definition hundred_saves : list LocalStorage.Save :=
  replicate 100
    {| LocalStorage.save_clock := clock;
       LocalStorage.save_write := LocalStorage.Written;
       LocalStorage.save_user := user;
       LocalStorage.save_data := suggestion_data (JNum 14) |}.

(** A second user, whose id differs from the id of [user] by the bar. *)
Definition namesake : User :=
  {| sub := "auth06512"; email := None; name := None |}.

(** A third user. *)
Definition other_user : User :=
  {| sub := "google-oauth2|77"; email := None; name := None |}.

(** An id as the driver reports it, and a primary store holding nothing. *)
Definition oid : string := "65f0a1b2c3d4e5f601234567".

Definition connected : Db.Backends :=
  {| Db.database := Some []; Db.disk := ∅ |}.

(** A table without the [season] column. *)
Definition table_without_season : Router.DataFrame :=
  {| Router.columns := ["cost_price"; "inventory_level"; "category"];
     Router.rows := [] |}.

(** The rate service answers with two rates, whatever the base. *)
Definition live_rates : gmap string Q := {[ "EUR" := 0.9%Q; "GBP" := 0.8%Q ]}.

Definition live (url : string) : Currency.fetch :=
  Currency.Status 200 (inr (Some live_rates)).

(** A currency service whose cache holds rates for USD that expired at
    second 100. *)
Definition stale : Currency.Service :=
  {| Currency.cache := {[ "rates_USD" := live_rates ]};
     Currency.cache_expiry := {[ "rates_USD" := 100%Z ]};
     Currency.requested := [] |}.

(** A document of the primary store. *)
Definition document : Db.Document :=
  {| Db.user_id := "auth0|6512"; Db.product_data := JObj [];
     Db.suggested_price := JNum 12; Db.reasoning := JStr "earlier";
     Db.confidence_score := JNull; Db.timestamp := "2023-11-01T08:00:00" |}.

(** A reader of replies that takes every text for the value [parsed], and
    a validation that wants a number under [suggested_price] and a string
    under [reasoning]. *)
Definition field (fields : list (string * json)) (key : string) : json :=
  match List.find (fun p => String.eqb (fst p) key) fields with
  | Some p => snd p
  | None => JNull
  end.

Definition parsing (reply : Gemini.generation) (parsed : json) : Gemini.Runtime :=
  {| Gemini.generate_content := fun _ => reply;
     Gemini.json_loads := fun _ => inr parsed;
     Gemini.float_str := fun q => pretty (Qfloor q) +:+ ".0";
     Gemini.not_iterable := fun v =>
       Py.Raise Py.TypeError "argument is not iterable";
     Gemini.not_a_mapping := fun v =>
       Py.Raise Py.TypeError "argument after ** must be a mapping";
     Gemini.validate_response := fun fields =>
       match field fields "suggested_price", field fields "reasoning" with
       | JNum price, JStr why =>
           inr {| suggested_price := price; reasoning := why;
                  confidence_score :=
                    match field fields "confidence_score" with
                    | JNum c => Some c
                    | _ => None
                    end |}
       | _, _ => inl (Py.Raise Py.ValidationError "validation error")
       end |}.

(** The service answers with a complete object. *)
Definition complete_object : Gemini.Runtime :=
  parsing (Gemini.Response "{...}")
    (JObj [("suggested_price", JNum 12.5); ("reasoning", JStr "competitive");
           ("confidence_score", JNum 0.9)]).

(** The service answers with blanks. *)
Definition blank : Gemini.Runtime := runtime (Gemini.Response "  ").

End Scenario.

(** * Properties *)

(** ** Rounding to two decimals *)

Section Rounding.
Local Open Scope Q_scope.

Lemma round_half_even_near (x : Q) :
  Qabs (inject_Z (Py.round_half_even x) - x) <= 1 # 2.
Proof.
  unfold Py.round_half_even.
  pose proof (Qfloor_le x) as Hlo.
  pose proof (Qlt_floor x) as Hhi.
  rewrite inject_Z_plus in Hhi.
  change (inject_Z 1) with 1 in Hhi.
  destruct (Qcompare_spec (x - inject_Z (Qfloor x)) (1 # 2)) as [He | Hl | Hg].
  - destruct (Z.even (Qfloor x)).
    + apply Qabs_case; intros; lra.
    + rewrite inject_Z_plus. change (inject_Z 1) with 1.
      apply Qabs_case; intros; lra.
  - apply Qabs_case; intros; lra.
  - rewrite inject_Z_plus. change (inject_Z 1) with 1.
    apply Qabs_case; intros; lra.
Qed.

Lemma round_half_even_integer (x : Q) (n : Z) :
  x == inject_Z n -> Py.round_half_even x = n.
Proof.
  intros Hx. unfold Py.round_half_even.
  assert (Hf : Qfloor x = n) by (rewrite Hx; apply Qfloor_Z).
  rewrite Hf.
  destruct (Qcompare_spec (x - inject_Z n) (1 # 2)) as [He | Hl | Hg].
  - exfalso. lra.
  - reflexivity.
  - exfalso. lra.
Qed.

(** [round(x, 2)] moves [x] by half a cent at most. *)
Lemma round2_near (x : Q) : Qabs (Py.round2 x - x) <= 0.005.
Proof.
  unfold Py.round2.
  pose proof (round_half_even_near (x * 100)) as H.
  set (r := inject_Z (Py.round_half_even (x * 100))) in *.
  apply Qabs_Qle_condition in H. destruct H as [Hlo Hhi].
  assert (Hdiv : r / 100 == r * (1 # 100)) by (unfold Qdiv; reflexivity).
  apply Qabs_Qle_condition. rewrite Hdiv. split; lra.
Qed.

(** [round(x, 2)] keeps a value of whole cents. *)
Lemma round2_cents (x : Q) (n : Z) : x * 100 == inject_Z n -> Py.round2 x == x.
Proof.
  intros Hx. unfold Py.round2.
  rewrite (round_half_even_integer _ _ Hx). rewrite <- Hx. field.
Qed.

End Rounding.

(** ** Rounding to binary64 *)

Section Binary64.
Local Open Scope Q_scope.

Lemma two_power_pos (z : Z) : 0 < 2 ^ z.
Proof. apply Qpower_0_lt. reflexivity. Qed.

Lemma two_power_succ (z : Z) : 2 ^ (z + 1) == 2 * 2 ^ z.
Proof. rewrite Qpower_plus by discriminate. rewrite Qpower_1_r. ring. Qed.

Lemma log2_bounds (n : Z) :
  (0 < n)%Z -> 2 ^ Z.log2 n <= inject_Z n /\ inject_Z n < 2 * 2 ^ Z.log2 n.
Proof.
  intros Hn. destruct (Z.log2_spec n Hn) as [Hlo Hhi].
  pose proof (Z.log2_nonneg n) as Hnn.
  rewrite <- two_power_succ.
  change 2 with (inject_Z 2).
  rewrite <- !Zpower_Qpower by lia.
  split; [rewrite <- Zle_Qle; exact Hlo |].
  rewrite <- Zlt_Qlt. replace (Z.log2 n + 1)%Z with (Z.succ (Z.log2 n)) by lia.
  exact Hhi.
Qed.

(** [binade] is the exponent of the binade of [q]. *)
Lemma binade_spec (q : Q) :
  0 < q -> 2 ^ Py.binade q <= q /\ q < 2 * 2 ^ Py.binade q.
Proof.
  intros Hq. unfold Py.binade.
  destruct q as [n d]. cbn [Qnum Qden].
  assert (Hn : (0 < n)%Z) by (unfold Qlt in Hq; simpl in Hq; lia).
  destruct (log2_bounds n Hn) as [Hn1 Hn2].
  destruct (log2_bounds (Zpos d) eq_refl) as [Hd1 Hd2].
  set (a := Z.log2 n) in *. set (b := Z.log2 (Zpos d)) in *.
  pose proof (two_power_pos a) as Pa. pose proof (two_power_pos b) as Pb.
  assert (Hq' : n # d == inject_Z n / inject_Z (Zpos d)) by apply Qmake_Qdiv.
  assert (He : 2 ^ (a - b) == 2 ^ a / 2 ^ b) by (apply Qpower_minus; discriminate).
  assert (Hd0 : 0 < inject_Z (Zpos d)) by reflexivity.
  set (N := inject_Z n) in *. set (D := inject_Z (Zpos d)) in *.
  set (P := 2 ^ a) in *. set (R := 2 ^ b) in *.
  assert (Hup : N / D < 2 * (P / R)).
  { apply Qlt_shift_div_r; [exact Hd0 |].
    assert (H : N * R < 2 * P * D) by nra.
    assert (E : 2 * (P / R) * D == (2 * P * D) / R) by (field; lra).
    rewrite E. apply Qlt_shift_div_l; [exact Pb | exact H]. }
  assert (Hlow : P / R < 2 * (N / D)).
  { apply Qlt_shift_div_r; [exact Pb |].
    assert (H : P * D < 2 * N * R) by nra.
    assert (E : 2 * (N / D) * R == (2 * N * R) / D) by (field; lra).
    rewrite E. apply Qlt_shift_div_l; [exact Hd0 | exact H]. }
  destruct (Qle_bool (2 ^ (a - b)) (n # d)) eqn:Hle.
  - apply Qle_bool_iff in Hle. split; [exact Hle |].
    rewrite He, Hq'. exact Hup.
  - assert (Hlt : n # d < 2 ^ (a - b)).
    { apply Qnot_le_lt. intros H. apply Qle_bool_iff in H. congruence. }
    assert (Hm : 2 ^ (a - b) == 2 * 2 ^ (a - b - 1)).
    { rewrite <- two_power_succ. replace (a - b - 1 + 1)%Z with (a - b)%Z by lia.
      reflexivity. }
    split; [| rewrite <- Hm; exact Hlt].
    rewrite He in Hm. rewrite Hq'. lra.
Qed.

(** Rounding to binary64 moves a rational of the normal range by less
    than one part in [2^53]. *)
Lemma b64_pos_near (q : Q) :
  2 ^ (-1022) <= q -> Qabs (Py.b64_pos q - q) <= q * 2 ^ (-53).
Proof.
  intros Hq.
  assert (Hpos : 0 < q) by (pose proof (two_power_pos (-1022)); lra).
  destruct (binade_spec q Hpos) as [Hlo Hhi].
  assert (He : (-1022 <= Py.binade q)%Z).
  { assert (H : 2 ^ (-1022) < 2 ^ (Py.binade q + 1)).
    { rewrite two_power_succ. lra. }
    apply Qpower_lt_compat_l_inv in H; [lia | reflexivity]. }
  unfold Py.b64_pos. rewrite Z.max_l by lia.
  set (s := (Py.binade q - 52)%Z).
  pose proof (two_power_pos s) as Ps.
  pose proof (round_half_even_near (q / 2 ^ s)) as Hr.
  set (m := inject_Z (Py.round_half_even (q / 2 ^ s))) in *.
  assert (Hs : 2 ^ Py.binade q == 2 ^ s * 2 ^ 52).
  { subst s. rewrite <- Qpower_plus by discriminate.
    replace (Py.binade q - 52 + 52)%Z with (Py.binade q) by lia. reflexivity. }
  assert (H52 : (2:Q) ^ 52 * 2 ^ (-53) == 1 # 2) by reflexivity.
  apply Qabs_Qle_condition in Hr. destruct Hr as [Hr1 Hr2].
  assert (Hdiv : q / 2 ^ s * 2 ^ s == q) by (field; lra).
  apply Qabs_Qle_condition.
  assert (Hbound : 2 ^ s * (1 # 2) <= q * 2 ^ (-53)).
  { rewrite <- H52. rewrite Hs in Hlo.
    pose proof (two_power_pos (-53)). nra. }
  split; nra.
Qed.

Lemma b64_near (q : Q) :
  2 ^ (-1022) <= q -> Qabs (Py.b64 q - q) <= q * 2 ^ (-53).
Proof.
  intros Hq.
  assert (Hpos : 0 < q) by (pose proof (two_power_pos (-1022)); lra).
  unfold Py.b64. destruct q as [[| n | n] d]; cbn [Qnum].
  - discriminate Hpos.
  - apply b64_pos_near. exact Hq.
  - discriminate Hpos.
Qed.

(** A float product of two rationals that are not tiny loses less than
    four parts in [10^15] of the exact product. *)
Lemma mul_above (x y : Q) :
  1 # 1000 <= x -> 1 <= y -> (1 - (4 # 1000000000000000)) * (x * y) <= Py.mul x y.
Proof.
  intros Hx Hy.
  assert (Hmin : 2 ^ (-1022) <= 1 # 1000000) by (vm_compute; discriminate).
  assert (Hu : 2 ^ (-53) <= 1 # 1000000000000000) by (vm_compute; discriminate).
  pose proof (two_power_pos (-53)) as Hu0.
  set (u := 2 ^ (-53)) in *.
  assert (Hx0 : 2 ^ (-1022) <= x) by (apply (Qle_trans _ (1 # 1000000)); [exact Hmin | lra]).
  assert (Hy0 : 2 ^ (-1022) <= y) by (apply (Qle_trans _ (1 # 1000000)); [exact Hmin | lra]).
  assert (Hbx : Qabs (Py.b64 x - x) <= x * u) by (apply b64_near; exact Hx0).
  assert (Hby : Qabs (Py.b64 y - y) <= y * u) by (apply b64_near; exact Hy0).
  clear Hx0 Hy0.
  apply Qabs_Qle_condition in Hbx, Hby.
  set (x' := Py.b64 x) in *. set (y' := Py.b64 y) in *.
  assert (Hx' : (1 - (1 # 1000000000000000)) * x <= x') by nra.
  assert (Hy' : (1 - (1 # 1000000000000000)) * y <= y') by nra.
  assert (Hxy : (1 - (3 # 1000000000000000)) * (x * y) <= x' * y') by nra.
  assert (Hbig : 2 ^ (-1022) <= x' * y').
  { apply (Qle_trans _ (1 # 1000000)); [exact Hmin | nra]. }
  clear Hmin.
  unfold Py.mul. fold x' y'.
  pose proof (b64_near (x' * y') Hbig) as Hb. fold u in Hb.
  apply Qabs_Qle_condition in Hb.
  set (p := Py.b64 (x' * y')) in *.
  assert (Hp : (1 - (1 # 1000000000000000)) * (x' * y') <= p) by nra.
  nra.
Qed.

End Binary64.

(** ** The primitives on small inputs *)

Section Primitives.
Local Open Scope Q_scope.

Example round2_up : Py.round2 13.986 == 13.99.
Proof. reflexivity. Qed.

Example round2_tie_to_even : Py.round2 0.125 == 0.12 /\ Py.round2 0.375 == 0.38.
Proof. split; reflexivity. Qed.

(** The literal [1.4] is the float below the decimal, [0.1] the float
    above it. *)
Example b64_of_literals :
  Py.b64 1.4 == 6305039478318694 # 4503599627370496
  /\ Py.b64 0.1 == 3602879701896397 # 36028797018963968
  /\ Py.b64 1.5 == 1.5.
Proof. vm_compute. repeat split. Qed.

(** The float product decides the cent: [0.125 * 1.4] and [0.07 * 1.5] are
    no ties in floats. *)
Example round2_of_float_products :
  Py.round2 (Py.mul 0.125 1.4) == 0.17
  /\ Py.round2 (Py.mul 0.025 1.4) == 0.03
  /\ Py.round2 (Py.mul 0.07 1.5) == 0.11
  /\ Py.round2 (Py.mul 0.01 1.5) == 0.01
  /\ Py.round2 (Py.mul 0.1 0.85) == 0.09
  /\ Py.round2 (Py.mul 9.99 1.4) == 13.99.
Proof. vm_compute. repeat split. Qed.

Example float_sum : ~ Py.add 0.1 0.2 == Py.b64 0.3.
Proof. intros H. vm_compute in H. discriminate H. Qed.

Example markup_percent : Py.sub (Py.mul 1.4 100) 100 == 40.
Proof. vm_compute. reflexivity. Qed.

Example slice_from_end : Py.slice_from [1; 2; 3; 4]%nat (-3) = [2; 3; 4]%nat.
Proof. reflexivity. Qed.

Example slice_page : Py.slice [1; 2; 3; 4; 5]%nat 1 (1 + 2) = [2; 3]%nat.
Proof. reflexivity. Qed.

Example slice_beyond : Py.slice [1; 2; 3]%nat 2 (2 + 50) = [3]%nat.
Proof. reflexivity. Qed.

Example strip_blanks : Py.strip "  {} " = "{}"%string.
Proof. reflexivity. Qed.

Example upper_code : Py.upper "usd" = "USD"%string.
Proof. reflexivity. Qed.

Example price_text : Py.remove_char "," (Py.remove_char "$" "$1,250") = "1250"%string.
Proof. reflexivity. Qed.

Example user_file :
  LocalStorage.get_user_file_path "auth0|6512"
  = "local_data/user_auth06512.json"%string.
Proof. reflexivity. Qed.

Example first_local_id :
  fst (LocalStorage.save_price_suggestion Scenario.clock LocalStorage.Written ∅
         Scenario.user (Scenario.suggestion_data (JNum 14)))
  = "local_0_1700000000"%string.
Proof. reflexivity. Qed.

End Primitives.

(** ** The tiers of the recommendation engine *)

Section Tiers.
Import Models Gemini.
Local Open Scope Q_scope.

Variable rt : Runtime.

Lemma eqb_empty_false (text : string) :
  text <> ""%string -> String.eqb text "" = false.
Proof. intros H. apply String.eqb_neq. exact H. Qed.

Lemma call_fails_emergency (request : PriceRecommendationRequest) :
  call_fails rt request ->
  exists e, get_price_recommendation rt request = emergency_fallback rt request e.
Proof.
  unfold call_fails, get_price_recommendation, ask_model.
  destruct (generate_content rt (build_pricing_prompt rt request)) as [e | | text].
  - intros _. exists e. reflexivity.
  - intros _. eexists. reflexivity.
  - intros ->. eexists. reflexivity.
Qed.

(** Every exception of the outer [try] is answered by the emergency
    handler. *)
Lemma every_exception_is_absorbed (request : PriceRecommendationRequest) (e : Py.exn) :
  ask_model rt request = inl e ->
  get_price_recommendation rt request = emergency_fallback rt request e.
Proof. intros H. unfold get_price_recommendation. rewrite H. reflexivity. Qed.


Lemma existsb_eqb_absent (key : string) (keys : list string) :
  ~ In key keys -> existsb (String.eqb key) keys = false.
Proof.
  intros Hnot. apply not_true_is_false. intros Hex.
  apply existsb_exists in Hex. destruct Hex as (k & Hin & Heq).
  apply String.eqb_eq in Heq. subst k. contradiction.
Qed.

Lemma all_in_object_lacking (members : list (string * json)) (key : string)
    (keys : list string) :
  In key keys -> ~ In key (map fst members) ->
  all_in rt keys (JObj members) = inr false.
Proof.
  intros Hin Hnot. induction keys as [| k keys IH]; [destruct Hin |].
  simpl. destruct (existsb (String.eqb k) (map fst members)) eqn:Hk.
  - destruct Hin as [-> | Hin].
    + rewrite (existsb_eqb_absent _ _ Hnot) in Hk. discriminate.
    + apply IH. exact Hin.
  - reflexivity.
Qed.

Lemma reply_lacks_key_emergency (request : PriceRecommendationRequest) :
  reply_lacks_key rt request ->
  get_price_recommendation rt request
  = emergency_fallback rt request
      (Py.Raise Py.ValueError "Missing required fields in Gemini response").
Proof.
  intros (text & members & key & Hgen & Hne & Hload & Hin & Hnot).
  unfold get_price_recommendation, ask_model, parse_reply.
  rewrite Hgen, (eqb_empty_false _ Hne), Hload.
  rewrite (all_in_object_lacking _ _ _ Hin Hnot). reflexivity.
Qed.

(** C1, as amended.  For a request with [cost_price > 0], when the call to
    the model raises or gives an empty response, the recommendation has
    [suggested_price = round(cost_price * 1.4, 2)], the float product
    rounded to two decimals, and [confidence_score = 0.5]. *)
Theorem emergency_tier_on_failed_call (request : PriceRecommendationRequest) :
  0 < cost_price request ->
  call_fails rt request ->
  let response := get_price_recommendation rt request in
  suggested_price response = Py.round2 (Py.mul (cost_price request) 1.4)
  /\ confidence_score response = Some 0.5.
Proof.
  intros _ Hfail response.
  destruct (call_fails_emergency request Hfail) as [e He].
  subst response. rewrite He. split; reflexivity.
Qed.


(** C9.  For a request with [cost_price > 0], when the model answers with a
    JSON object that lacks one of [suggested_price], [reasoning],
    [confidence_score], the recommendation is the one of the emergency
    handler, built for the [ValueError] of the missing-key check: its price
    is the 1.4 markup (the float product, rounded to cents), its
    [confidence_score] is 0.5, and it is not the recommendation of the
    parse-failure handler. *)
Theorem missing_key_takes_emergency_tier (request : PriceRecommendationRequest) :
  0 < cost_price request ->
  reply_lacks_key rt request ->
  let response := get_price_recommendation rt request in
  response
  = emergency_fallback rt request
      (Py.Raise Py.ValueError "Missing required fields in Gemini response")
  /\ suggested_price response = Py.round2 (Py.mul (cost_price request) 1.4)
  /\ confidence_score response = Some 0.5
  /\ response <> parse_fallback rt request.
Proof.
  intros _ Hlack response. subst response.
  rewrite (reply_lacks_key_emergency request Hlack).
  repeat split. intros Heq.
  apply (f_equal confidence_score) in Heq. discriminate Heq.
Qed.

End Tiers.

Section TierExamples.
Import Models Gemini.
Local Open Scope Q_scope.

Lemma emergency_tier_on_failed_call_witness :
  0 < cost_price (Scenario.request 10)
  /\ call_fails Scenario.unreachable (Scenario.request 10)
  /\ suggested_price (get_price_recommendation Scenario.unreachable (Scenario.request 10))
     == 14
  /\ confidence_score (get_price_recommendation Scenario.unreachable (Scenario.request 10))
     = Some 0.5.
Proof.
  assert (Hpos : 0 < cost_price (Scenario.request 10)) by reflexivity.
  assert (Hfail : call_fails Scenario.unreachable (Scenario.request 10)) by exact I.
  destruct (emergency_tier_on_failed_call Scenario.unreachable (Scenario.request 10)
              Hpos Hfail) as (Hprice & Hconf).
  split; [exact Hpos | split; [exact Hfail | split; [| exact Hconf]]].
  rewrite Hprice. vm_compute. reflexivity.
Defined.

(** C1 as stated fails: at a cost of 9.99 with the model unreachable the
    suggested price is 13.99, which is neither 13.986 nor the float product
    of 1.4 and the cost. *)
Lemma emergency_tier_rounds_to_cents :
  0 < cost_price (Scenario.request 9.99)
  /\ call_fails Scenario.unreachable (Scenario.request 9.99)
  /\ suggested_price (get_price_recommendation Scenario.unreachable (Scenario.request 9.99))
     == 13.99
  /\ ~ suggested_price (get_price_recommendation Scenario.unreachable (Scenario.request 9.99))
       == 1.4 * cost_price (Scenario.request 9.99)
  /\ ~ suggested_price (get_price_recommendation Scenario.unreachable (Scenario.request 9.99))
       == Py.mul 1.4 (cost_price (Scenario.request 9.99)).
Proof.
  split; [reflexivity | split; [exact I | split; [| split]]].
  - vm_compute. reflexivity.
  - intros H. vm_compute in H. discriminate H.
  - intros H. vm_compute in H. discriminate H.
Qed.



Lemma missing_key_takes_emergency_tier_witness :
  0 < cost_price (Scenario.request 10)
  /\ reply_lacks_key Scenario.empty_object (Scenario.request 10)
  /\ confidence_score
       (get_price_recommendation Scenario.empty_object (Scenario.request 10))
     = Some 0.5.
Proof.
  assert (Hpos : 0 < cost_price (Scenario.request 10)) by reflexivity.
  assert (Hlack : reply_lacks_key Scenario.empty_object (Scenario.request 10)).
  { exists " {} "%string, [], "reasoning"%string.
    split; [reflexivity |]. split; [discriminate |]. split; [reflexivity |].
    split; [right; left; reflexivity | intros []]. }
  split; [exact Hpos | split; [exact Hlack |]].
  apply (missing_key_takes_emergency_tier Scenario.empty_object
           (Scenario.request 10) Hpos Hlack).
Defined.

End TierExamples.

(** ** The local file store *)

Section LocalStore.
Import LocalStorage.

Lemma slice_from_last_100 {A} (l : list A) :
  Py.slice_from l (-100) = drop (length l - 100) l.
Proof.
  unfold Py.slice_from, Py.slice_index.
  change (-100 <? 0)%Z with true. cbv iota. f_equal. lia.
Qed.

Lemma slice_from_last_100_length {A} (l : list A) :
  (length (Py.slice_from l (-100)) <= 100)%nat.
Proof. rewrite slice_from_last_100, length_drop. lia. Qed.

(** What [load_user_data] reads after a save whose write went through. *)
Lemma load_after_written (clk : Clock) (disk : gmap string file)
    (user : Models.User) (data : gmap string json) :
  let old := load_user_data disk (Models.sub user) in
  load_user_data (snd (save_price_suggestion clk Written disk user data))
    (Models.sub user)
  = Py.slice_from (old ++ [new_suggestion clk old user data])%list (-100).
Proof.
  unfold save_price_suggestion, save_user_data, load_user_data at 1. simpl.
  rewrite lookup_insert_eq. reflexivity.
Qed.

Lemma save_keeps_capped (clk : Clock) (w : write) (disk : gmap string file)
    (user : Models.User) (data : gmap string json) :
  capped disk -> capped (snd (save_price_suggestion clk w disk user data)).
Proof.
  intros Hcap path l. unfold save_price_suggestion, save_user_data. simpl.
  destruct w.
  - rewrite lookup_insert. case_decide as Hp.
    + intros [= <-]. apply slice_from_last_100_length.
    + apply Hcap.
  - apply Hcap.
  - rewrite lookup_insert. case_decide as Hp.
    + discriminate.
    + apply Hcap.
Qed.

Lemma run_saves_keeps_capped (saves : list Save) (disk : gmap string file) :
  capped disk -> capped (run_saves disk saves).
Proof.
  revert disk. induction saves as [| s saves IH]; intros disk Hcap.
  - exact Hcap.
  - simpl. apply IH. apply save_keeps_capped. exact Hcap.
Qed.

Lemma load_capped (disk : gmap string file) (user_id : string) :
  capped disk -> (length (load_user_data disk user_id) <= 100)%nat.
Proof.
  intros Hcap. unfold load_user_data.
  destruct (disk !! get_user_file_path user_id) as [[| l] |] eqn:Hfile;
    simpl; try lia.
  apply (Hcap _ _ Hfile).
Qed.

Lemma capped_empty : capped ∅.
Proof. intros path l H. rewrite lookup_empty in H. discriminate. Qed.

(** Below the cap a save appends and evicts nothing. *)
Lemma save_below_cap (clk : Clock) (disk : gmap string file)
    (user : Models.User) (data : gmap string json) :
  let old := load_user_data disk (Models.sub user) in
  (length old < 100)%nat ->
  load_user_data (snd (save_price_suggestion clk Written disk user data))
    (Models.sub user)
  = (old ++ [new_suggestion clk old user data])%list.
Proof.
  intros old Hlen. rewrite load_after_written, slice_from_last_100.
  fold old. rewrite length_app. simpl.
  replace (length old + 1 - 100)%nat with 0%nat by lia. reflexivity.
Qed.

(** C3.  From a disk whose files hold at most 100 suggestions each (the
    empty disk is one), after every sequence of saves, whatever becomes of
    their writes, the list stored for a user holds at most 100 records; and
    a save made when 100 are stored, its file once written, leaves the
    former list without its first (oldest) record, followed by the new
    record. *)
Theorem local_store_keeps_last_100 (disk : gmap string file) (saves : list Save)
    (user : Models.User) :
  capped disk ->
  let disk' := run_saves disk saves in
  let old := load_user_data disk' (Models.sub user) in
  (length old <= 100)%nat
  /\ forall clk w data,
       w = Written ->
       length old = 100%nat ->
       load_user_data (snd (save_price_suggestion clk w disk' user data))
         (Models.sub user)
       = (tail old ++ [new_suggestion clk old user data])%list.
Proof.
  intros Hcap disk' old. split.
  - apply load_capped, run_saves_keeps_capped, Hcap.
  - intros clk w data -> Hlen. rewrite load_after_written, slice_from_last_100.
    fold old. rewrite length_app, Hlen. simpl.
    destruct old as [| oldest rest]; [discriminate Hlen | reflexivity].
Qed.

End LocalStore.

Section LocalStoreExamples.
Import LocalStorage.

Lemma local_store_keeps_last_100_witness :
  capped ∅
  /\ length (load_user_data (run_saves ∅ Scenario.hundred_saves) "auth0|6512") = 100%nat
  /\ load_user_data
       (snd (save_price_suggestion Scenario.clock Written
               (run_saves ∅ Scenario.hundred_saves) Scenario.user
               (Scenario.suggestion_data (JNum 15))))
       "auth0|6512"
     = (tail (load_user_data (run_saves ∅ Scenario.hundred_saves) "auth0|6512")
        ++ [new_suggestion Scenario.clock
              (load_user_data (run_saves ∅ Scenario.hundred_saves) "auth0|6512")
              Scenario.user (Scenario.suggestion_data (JNum 15))])%list.
Proof.
  assert (Hlen : length (load_user_data (run_saves ∅ Scenario.hundred_saves) "auth0|6512")
                 = 100%nat) by (vm_compute; reflexivity).
  split; [exact capped_empty | split; [exact Hlen |]].
  apply (local_store_keeps_last_100 ∅ Scenario.hundred_saves Scenario.user capped_empty);
    [reflexivity | exact Hlen].
Defined.

End LocalStoreExamples.



(** ** Saving through the data store *)

Section DataStore.
Import LocalStorage.



Lemma insert_newest_first_length (x : Suggestion) (l : list Suggestion) :
  length (insert_newest_first x l) = S (length l).
Proof.
  induction l as [| z l IH]; simpl; [reflexivity |].
  destruct (String.leb (timestamp z) (timestamp x)); simpl; congruence.
Qed.

Lemma sort_newest_first_length (l : list Suggestion) :
  length (sort_newest_first l) = length l.
Proof.
  induction l as [| x l IH]; simpl; [reflexivity |].
  rewrite insert_newest_first_length, IH. reflexivity.
Qed.

(** A page from the start that is as long as the list is the whole list. *)
Lemma slice_whole {A} (l : list A) (limit : Z) :
  (Z.of_nat (length l) <= limit)%Z -> Py.slice l 0 (0 + limit) = l.
Proof.
  intros Hlim. unfold Py.slice, Py.slice_index.
  change (0 <? 0)%Z with false. cbv iota.
  rewrite Z.add_0_l.
  destruct (limit <? 0)%Z eqn:Hneg; [apply Z.ltb_lt in Hneg; lia |].
  rewrite (Z.min_l 0) by lia. rewrite (Z.min_r limit) by lia.
  rewrite Z.sub_0_r, Nat2Z.id. simpl. apply firstn_all.
Qed.

(** The record of a save is the last of the list it leaves. *)
Lemma new_suggestion_stored {A} (old : list A) (x : A) :
  In x (Py.slice_from (old ++ [x])%list (-100)).
Proof.
  rewrite slice_from_last_100, length_app. simpl.
  rewrite drop_app_le by lia. apply in_or_app. right. left. reflexivity.
Qed.


(** A write that does not go through is not reported: the id is returned
    all the same and the disk is as before. *)
Lemma refused_write_is_silent (clk : Clock) (disk : gmap string file)
    (user : Models.User) (data : gmap string json) :
  snd (save_price_suggestion clk Refused disk user data) = disk.
Proof. reflexivity. Qed.

(** The other side: an insert that goes through stores the document in the
    primary collection alone, under the driver's id. *)
Lemma save_to_primary_leaves_disk (clk : Clock) (w : write) (inserted_id : string)
    (collection : list (string * Db.Document)) (disk : gmap string file)
    (user : Models.User) (data : gmap string json) :
  let st := {| Db.database := Some collection; Db.disk := disk |} in
  let saved := Db.save_price_suggestion clk (Db.Inserted inserted_id) w st user data in
  fst saved = inserted_id
  /\ Db.disk (snd saved) = disk
  /\ exists document,
       Db.database (snd saved) = Some (collection ++ [(inserted_id, document)])%list
       /\ Db.user_id document = Models.sub user
       /\ Db.suggested_price document = get data "suggested_price"
       /\ Db.reasoning document = get data "reasoning".
Proof.
  intros st saved. subst st saved. unfold Db.save_price_suggestion. simpl.
  destruct (save_price_suggestion clk w disk user data) as [id disk'].
  split; [reflexivity | split; [reflexivity |]].
  eexists. split; [reflexivity |]. repeat split.
Qed.

End DataStore.

Section DataStoreExamples.
Import LocalStorage.



End DataStoreExamples.

(** ** The CSV batch *)

Section Batch.
Import Models Router.

Variable rt : Gemini.Runtime.
Variable py_float : string -> option Q.

(** A round of the loop that is not left by an exception: the label adds
    to a number, one entry is appended, the entry of the row under that
    number, and one of the counters grows. *)
Lemma process_row_returns (t t' : Tally) (index : label) (row : gmap string cell) :
  process_row rt py_float t index row = inr t' ->
  exists row_number,
    add_1 index = inr row_number
    /\ entries t' = (entries t ++ [entry_of rt py_float row_number row])%list
    /\ failed t' = (failed t + (if row_fails rt py_float row then 1 else 0))%Z
    /\ successful t'
       = (successful t + (if row_fails rt py_float row then 0 else 1))%Z
    /\ length (suggestions_to_save t')
       = (length (suggestions_to_save t)
          + (if row_fails rt py_float row then 0 else 1))%nat.
Proof.
  unfold process_row, entry_of, row_fails, bind.
  destruct (parse_row rt py_float row) as [e | request_data];
    destruct (add_1 index) as [e' | row_number]; try discriminate;
    intros [= <-]; exists row_number; cbn;
    repeat split; try lia; rewrite ?length_app; reflexivity.
Qed.


(** What [index + 1] raises leaves the round, whatever the row. *)
Lemma process_row_raises (t : Tally) (index : label) (row : gmap string cell)
    (e : Py.exn) :
  add_1 index = inl e -> process_row rt py_float t index row = inl e.
Proof.
  intros Hadd. unfold process_row, bind. rewrite Hadd.
  destruct (parse_row rt py_float row); reflexivity.
Qed.

Lemma count_failing_cons (index : label) (row : gmap string cell)
    (rows_ : list (label * gmap string cell)) :
  count_failing rt py_float ((index, row) :: rows_)
  = ((if row_fails rt py_float row then 1 else 0)
     + count_failing rt py_float rows_)%nat.
Proof.
  unfold count_failing. simpl.
  destruct (row_fails rt py_float row); reflexivity.
Qed.

(** The loop, from any tally, when no exception leaves it: every row adds
    one to one of the counters and one entry, its own, to the results. *)
Lemma iterrows_tally (rows_ : list (label * gmap string cell)) :
  forall t t' : Tally,
    iterrows rt py_float rows_ t = inr t' ->
    failed t' = (failed t + Z.of_nat (count_failing rt py_float rows_))%Z
    /\ successful t'
       = (successful t + Z.of_nat (length rows_)
          - Z.of_nat (count_failing rt py_float rows_))%Z
    /\ (length (suggestions_to_save t') + count_failing rt py_float rows_
        = length (suggestions_to_save t) + length rows_)%nat
    /\ exists new,
         entries t' = (entries t ++ new)%list
         /\ length new = length rows_
         /\ forall (j : nat) index row,
              rows_ !! j = Some (index, row) ->
              exists row_number,
                add_1 index = inr row_number
                /\ new !! j = Some (entry_of rt py_float row_number row).
Proof.
  induction rows_ as [| [index row] rows_ IH]; intros t t' Hloop.
  - injection Hloop as <-. change (count_failing rt py_float []) with 0%nat.
    split; [lia | split; [simpl; lia | split; [simpl; lia |]]].
    exists []. rewrite app_nil_r.
    split; [reflexivity | split; [reflexivity |]].
    intros j i r Hj. discriminate Hj.
  - cbn [iterrows] in Hloop. unfold bind in Hloop.
    destruct (process_row rt py_float t index row) as [e | t1] eqn:Hrow;
      [discriminate Hloop |].
    destruct (process_row_returns _ _ _ _ Hrow)
      as (row_number & Hadd & Hent & Hf1 & Hs1 & Hq1).
    destruct (IH t1 t' Hloop) as (Hf & Hs & Hq & new & Hnew & Hlen & Hnth).
    rewrite count_failing_cons. cbn [length].
    split; [destruct (row_fails rt py_float row); lia |].
    split; [destruct (row_fails rt py_float row); lia |].
    split; [destruct (row_fails rt py_float row); lia |].
    exists (entry_of rt py_float row_number row :: new).
    rewrite Hnew, Hent, <- app_assoc.
    split; [reflexivity | split; [simpl; congruence |]].
    intros [| j] i r Hj; simpl in Hj.
    + injection Hj as <- <-. exists row_number. split; [exact Hadd | reflexivity].
    + apply (Hnth j i r Hj).
Qed.








End Batch.

Section BatchExamples.
Import Router.


(** The text of a cell of an integer column has no decimal point. *)
Example integer_cell_text :
  str Scenario.unreachable (Integer 5) = "5"%string
  /\ str Scenario.unreachable (Number 5) = "5.0"%string
  /\ float Scenario.float_of_digits (Integer 5) = inr (Py.Float (Py.b64 5)).
Proof. repeat split. Qed.


End BatchExamples.

(** ** Statistics of the local file store *)

Section LocalStats.
Import LocalStorage.
Local Open Scope Q_scope.

Variable py_float : string -> option Q.

(** No stored suggestion, all zeros. *)
Lemma stats_of_no_suggestion (disk : gmap string file) (user : Models.User) :
  load_user_data disk (Models.sub user) = [] ->
  get_suggestions_stats py_float disk user
  = inr {| total_suggestions := 0; average_price := 0;
           min_price := 0; max_price := 0 |}.
Proof. intros H. unfold get_suggestions_stats. rewrite H. reflexivity. Qed.

Lemma collect_price_scalar (prices : list json) (s : Suggestion) :
  scalar_price s ->
  collect_price py_float prices s
  = inr (prices ++ map JNum (option_list (spec_coerce py_float (suggested_price s))))%list.
Proof.
  unfold scalar_price, collect_price, spec_coerce, float_of_number.
  destruct (suggested_price s) as [| b | q | str | |]; intros Hs;
    try contradiction; simpl; try (rewrite app_nil_r); try reflexivity.
  - rewrite Hs. reflexivity.
  - destruct (py_float _); simpl; [reflexivity | rewrite app_nil_r; reflexivity].
Qed.

Lemma collect_prices_scalar (suggestions : list Suggestion) :
  forall prices,
    Forall scalar_price suggestions ->
    collect_prices py_float prices suggestions
    = inr (prices ++ map JNum (spec_prices py_float suggestions))%list.
Proof.
  induction suggestions as [| s suggestions IH]; intros prices Hall; simpl.
  - rewrite app_nil_r. reflexivity.
  - inversion Hall as [| ? ? Hs Hrest]; subst.
    rewrite (collect_price_scalar _ _ Hs), (IH _ Hrest), <- app_assoc.
    do 2 f_equal. unfold spec_prices. simpl.
    destruct (spec_coerce py_float (suggested_price s)); reflexivity.
Qed.

Lemma sum_from_floats (prices : list Q) :
  forall acc acc_type,
    sum_from acc acc_type (map JNum prices) = inr (foldl Qplus acc prices).
Proof.
  induction prices as [| q prices IH]; intros acc acc_type; simpl;
    [reflexivity | apply IH].
Qed.

Lemma floats_of_floats (prices : list Q) : floats (map JNum prices) = prices.
Proof.
  unfold floats. induction prices as [| q prices IH]; [reflexivity |].
  cbn. f_equal. exact IH.
Qed.

(** On stored prices that are [None], numbers within the finite floats,
    booleans or strings the statistics are those of the specification, the
    sum and the mean taken exactly. *)
Lemma stats_of_scalar_prices (disk : gmap string file) (user : Models.User) :
  Forall scalar_price (load_user_data disk (Models.sub user)) ->
  get_suggestions_stats py_float disk user
  = inr (spec_stats py_float (load_user_data disk (Models.sub user))).
Proof.
  intros Hall. unfold get_suggestions_stats, spec_stats.
  destruct (load_user_data disk (Models.sub user)) as [| s rest] eqn:Hload;
    [reflexivity |].
  rewrite (collect_prices_scalar _ _ Hall), app_nil_l.
  destruct (spec_prices py_float (s :: rest)) as [| q prices]; [reflexivity |].
  unfold sum. rewrite sum_from_floats, floats_of_floats, length_map.
  reflexivity.
Qed.

(** With stored suggestions of which no price is coerced, the total is their
    number and the rest is 0. *)
Lemma stats_of_no_price (disk : gmap string file) (user : Models.User) :
  let suggestions := load_user_data disk (Models.sub user) in
  suggestions <> [] ->
  Forall scalar_price suggestions ->
  spec_prices py_float suggestions = [] ->
  get_suggestions_stats py_float disk user
  = inr {| total_suggestions := Z.of_nat (length suggestions);
           average_price := 0; min_price := 0; max_price := 0 |}.
Proof.
  intros suggestions Hne Hall Hnone.
  rewrite (stats_of_scalar_prices _ _ Hall). fold suggestions.
  unfold spec_stats. destruct suggestions as [| s rest]; [contradiction |].
  rewrite Hnone. reflexivity.
Qed.

End LocalStats.

Section LocalStatsExamples.
Import LocalStorage.
Local Open Scope Q_scope.

(** A stored integer beyond the finite floats: [float] raises an
    [OverflowError], which the loop does not catch. *)
Example stats_raise_on_huge_integer :
  get_suggestions_stats Scenario.float_of_digits
    (Scenario.disk_with [JNum 10; JNum (inject_Z (10 ^ 400))]) Scenario.user
  = inl (Py.Raise Py.OverflowError "int too large to convert to float").
Proof. vm_compute. reflexivity. Qed.

Example stats_of_text_prices :
  get_suggestions_stats Scenario.float_of_digits
    (Scenario.disk_with [JStr "$1,250"; JStr "n/a"; JNull; JNum 750]) Scenario.user
  = inr {| total_suggestions := 4; average_price := (1250 + 750) / 2;
           min_price := 750; max_price := 1250 |}.
Proof. vm_compute. reflexivity. Qed.

End LocalStatsExamples.

Section LocalStatsDefect.
Import LocalStorage.
Local Open Scope Q_scope.

(** C6, where the code departs from it.  With a stored price of 10.0 and a
    stored price that is a list, the specification skips the list and gives
    a total of 2 with mean, least and greatest 10.0; the code appends the
    list to its prices and [sum] raises a [TypeError]. *)
Theorem stats_raise_on_list_price :
  let disk := Scenario.disk_with [JNum 10; JArr [JNum 12.5]] in
  length (load_user_data disk "auth0|6512") = 2%nat
  /\ spec_stats Scenario.float_of_digits (load_user_data disk "auth0|6512")
     = {| total_suggestions := 2; average_price := 10 / 1;
          min_price := 10; max_price := 10 |}
  /\ get_suggestions_stats Scenario.float_of_digits disk Scenario.user
     = inl (Py.Raise Py.TypeError
              "unsupported operand type(s) for +: 'float' and 'list'").
Proof. vm_compute. repeat split. Qed.

(** C10, where the code departs from it.  With one stored suggestion whose
    price is an object, no price is coercible to a number and the claim has
    a total of 1 with the rest 0; the code appends the object to its prices
    and [sum] raises a [TypeError]. *)
Theorem stats_raise_on_uncoercible_object :
  let disk := Scenario.disk_with [JObj [("amount"%string, JNum 12.5)]] in
  length (load_user_data disk "auth0|6512") = 1%nat
  /\ spec_prices Scenario.float_of_digits (load_user_data disk "auth0|6512") = []
  /\ spec_stats Scenario.float_of_digits (load_user_data disk "auth0|6512")
     = {| total_suggestions := 1; average_price := 0;
          min_price := 0; max_price := 0 |}
  /\ get_suggestions_stats Scenario.float_of_digits disk Scenario.user
     = inl (Py.Raise Py.TypeError
              "unsupported operand type(s) for +: 'int' and 'dict'").
Proof. vm_compute. repeat split. Qed.

End LocalStatsDefect.

(** ** Currency conversion *)

Section Conversion.
Import Currency.
Local Open Scope Q_scope.

Variable http_get : string -> fetch.
Variable now : Z.

(** C7.  When the two currency codes are equal up to case, in particular
    for [convert_currency(amount, X, X)], the result is the amount as given
    with the single rate 1.0 under the key [from_to_to], and the service is
    as before: no URL was requested and the cache is untouched, whatever
    the HTTP client and the clock would have answered. *)
Theorem convert_same_currency_is_identity (self : Service) (amount : Q)
    (from_currency to_currency : string) :
  Py.upper from_currency = Py.upper to_currency ->
  convert_currency http_get now self amount from_currency to_currency
  = ((amount, {[from_currency +:+ "_to_" +:+ to_currency := Rate 1.0]}), self).
Proof.
  intros Hsame. unfold convert_currency.
  rewrite Hsame, String.eqb_refl. reflexivity.
Qed.

Lemma fallback_rate_positive (currency : string) (rate : Q) :
  fallback_rates !! currency = Some rate -> 0 < rate.
Proof.
  intros H. apply elem_of_list_to_map_2 in H.
  repeat (apply elem_of_cons in H; destruct H as [H | H];
          [injection H as -> ->; reflexivity |]).
  inversion H.
Qed.

(** A rate of the table divided by itself is 1.0. *)
Lemma fallback_rate_over_itself (currency : string) (rate : Q) :
  fallback_rates !! currency = Some rate -> Py.div rate rate == 1.
Proof.
  intros H. apply elem_of_list_to_map_2 in H.
  repeat (apply elem_of_cons in H; destruct H as [H | H];
          [injection H as -> ->; vm_compute; reflexivity |]).
  inversion H.
Qed.

(** A failed fetch with nothing fresh in the cache is answered by
    [_get_fallback_rates]. *)
Lemma failed_fetch_uses_fallback (self : Service) (base_currency : string) :
  cached now self ("rates_" +:+ base_currency) = None ->
  fetch_failed (http_get (base_url +:+ "/" +:+ base_currency)) ->
  fst (get_exchange_rates http_get now self base_currency)
  = _get_fallback_rates base_currency.
Proof.
  intros Hcache Hfail. unfold get_exchange_rates. rewrite Hcache.
  destruct (http_get (base_url +:+ "/" +:+ base_currency)) as [e | code body];
    [reflexivity |].
  destruct (code =? 200)%Z eqn:Hcode'; [| reflexivity].
  destruct Hfail as [Hcode | [e ->]]; [| reflexivity].
  apply Z.eqb_eq in Hcode'. contradiction.
Qed.

(** C8, as amended.  When the live fetch fails (it raises, or the status is
    not 200, or the body does not decode) and the cache has nothing fresh
    for the base, the rates returned are: for base USD, the fallback table;
    for a base other than USD that the table lists, for each currency of
    the table its USD rate divided by the USD rate of the base (the
    quotient of the floats), so that the base maps to 1; for a base the
    table does not list, each USD rate divided by 1.0, and no entry for the
    base. *)
Theorem fallback_rates_on_failed_fetch (self : Service) (base_currency : string) :
  cached now self ("rates_" +:+ base_currency) = None ->
  fetch_failed (http_get (base_url +:+ "/" +:+ base_currency)) ->
  let rates := fst (get_exchange_rates http_get now self base_currency) in
  (base_currency = "USD"%string -> rates = fallback_rates /\ size rates = 10%nat)
  /\ (forall base_rate,
        base_currency <> "USD"%string ->
        fallback_rates !! base_currency = Some base_rate ->
        (forall currency,
            rates !! currency
            = (fun rate => Py.div rate base_rate) <$> fallback_rates !! currency)
        /\ exists one, rates !! base_currency = Some one /\ one == 1)
  /\ (base_currency <> "USD"%string ->
      fallback_rates !! base_currency = None ->
      (forall currency,
          rates !! currency
          = (fun rate => Py.div rate 1.0) <$> fallback_rates !! currency)
      /\ rates !! base_currency = None).
Proof.
  intros Hcache Hfail rates. subst rates.
  rewrite (failed_fetch_uses_fallback self base_currency Hcache Hfail).
  unfold _get_fallback_rates. split; [| split].
  - intros ->. split; reflexivity.
  - intros base_rate Hne Hbase.
    apply String.eqb_neq in Hne. rewrite Hne, Hbase. simpl.
    split.
    + intros currency. apply lookup_fmap.
    + exists (Py.div base_rate base_rate). rewrite lookup_fmap, Hbase.
      split; [reflexivity |]. apply (fallback_rate_over_itself _ _ Hbase).
  - intros Hne Hbase.
    apply String.eqb_neq in Hne. rewrite Hne, Hbase. simpl.
    split.
    + intros currency. apply lookup_fmap.
    + rewrite lookup_fmap, Hbase. reflexivity.
Qed.

End Conversion.

Section ConversionExamples.
Import Currency.
Local Open Scope Q_scope.

Lemma convert_same_currency_is_identity_witness :
  Py.upper "usd" = Py.upper "USD"
  /\ convert_currency Scenario.offline 0 Scenario.fresh 12.5 "usd" "USD"
     = ((12.5, {["usd_to_USD"%string := Rate 1.0]}), Scenario.fresh).
Proof.
  split; [reflexivity |].
  apply (convert_same_currency_is_identity Scenario.offline 0 Scenario.fresh
           12.5 "usd" "USD").
  reflexivity.
Defined.

(** C8 as stated fails: with the rate service unreachable and the base XYZ,
    which the fallback table does not list, the rates returned have no
    entry for XYZ, so the base does not map to 1.0, and the euro stands at
    its USD rate over 1.0. *)
Lemma unlisted_base_keeps_usd_rates :
  "XYZ"%string <> "USD"%string
  /\ cached 0 Scenario.fresh "rates_XYZ" = None
  /\ fetch_failed (Scenario.offline (base_url +:+ "/XYZ"))
  /\ fallback_rates !! "XYZ"%string = None
  /\ fst (get_exchange_rates Scenario.offline 0 Scenario.fresh "XYZ") !! "XYZ"%string
     = None
  /\ fst (get_exchange_rates Scenario.offline 0 Scenario.fresh "XYZ") !! "EUR"%string
     = Some (Py.div 0.85 1.0).
Proof.
  split; [discriminate |]. split; [reflexivity |]. split; [exact I |].
  vm_compute. repeat split.
Qed.

Lemma fallback_rates_on_failed_fetch_witness :
  cached 0 Scenario.fresh "rates_EUR" = None
  /\ fetch_failed (Scenario.offline (base_url +:+ "/EUR"))
  /\ fst (get_exchange_rates Scenario.offline 0 Scenario.fresh "EUR") !! "GBP"%string
     = Some (Py.div 0.73 0.85).
Proof.
  assert (Hcache : cached 0 Scenario.fresh "rates_EUR" = None) by reflexivity.
  assert (Hfail : fetch_failed (Scenario.offline (base_url +:+ "/EUR"))) by exact I.
  split; [exact Hcache | split; [exact Hfail |]].
  destruct (fallback_rates_on_failed_fetch Scenario.offline 0 Scenario.fresh "EUR"
              Hcache Hfail) as (_ & Hlisted & _).
  destruct (Hlisted 0.85) as [Hrates _]; [discriminate | reflexivity |].
  rewrite Hrates. reflexivity.
Defined.

End ConversionExamples.

(** * Further properties of the code *)

(** ** Which replies reach which tier *)

Section TierDispatch.
Import Models Gemini.
Local Open Scope Q_scope.

Variable rt : Runtime.

Lemma all_in_object_present (members : list (string * json)) (keys : list string) :
  all_in rt keys (JObj members) = inr true ->
  forall key, In key keys -> In key (map fst members).
Proof.
  induction keys as [| k keys IH]; intros Hall key Hin; [destruct Hin |].
  simpl in Hall.
  destruct (existsb (String.eqb k) (map fst members)) eqn:Hk; [| discriminate Hall].
  destruct Hin as [<- | Hin]; [| apply IH; assumption].
  apply existsb_exists in Hk. destruct Hk as (k' & Hin' & Heq).
  apply String.eqb_eq in Heq. subst k'. exact Hin'.
Qed.

(** X1.  Whatever the model and the libraries do, the recommendation is of
    one of three kinds: the emergency response for some exception; the
    parse-failure response, for a non-empty text that [json.loads] rejects;
    or the response pydantic builds from a reply that parses to an object
    with all three required keys.  Numbers of the model are never returned
    from a reply that is no object or lacks a key. *)
Theorem recommendation_is_of_three_kinds (request : PriceRecommendationRequest) :
  (exists e, get_price_recommendation rt request = emergency_fallback rt request e)
  \/ (reply_unparseable rt request
      /\ get_price_recommendation rt request = parse_fallback rt request)
  \/ (exists text members,
        generate_content rt (build_pricing_prompt rt request) = Response text
        /\ text <> ""%string
        /\ json_loads rt (Py.strip text) = inr (JObj members)
        /\ (forall key, In key required_fields -> In key (map fst members))
        /\ validate_response rt members
           = inr (get_price_recommendation rt request)).
Proof.
  unfold get_price_recommendation, ask_model.
  destruct (generate_content rt (build_pricing_prompt rt request))
    as [e | | text] eqn:Hgen; [left; eauto | left; eauto |].
  destruct (String.eqb text "") eqn:Htext; [left; eauto |].
  apply String.eqb_neq in Htext. unfold parse_reply.
  destruct (json_loads rt (Py.strip text)) as [e | result] eqn:Hload.
  - destruct (Py.is_JSONDecodeError e) eqn:Hcls; [| left; eauto].
    right. left. split; [| reflexivity].
    exists text, e. auto.
  - destruct (all_in rt required_fields result) as [e | [|]] eqn:Hall;
      [left; eauto | | left; eauto].
    destruct result as [| b | q | str | items | members];
      try (left; eexists; reflexivity).
    simpl. destruct (validate_response rt members) as [e | response] eqn:Hval;
      [left; eauto |].
    right. right. exists text, members.
    split; [reflexivity |]. split; [exact Htext |]. split; [exact Hload |].
    split; [| first [exact Hval | reflexivity]].
    exact (all_in_object_present members required_fields Hall).
Qed.

Lemma lstrip_blank (text : string) :
  forallb Py.isspace (list_ascii_of_string text) = true ->
  Py.lstrip text = ""%string.
Proof.
  induction text as [| c text IH]; [reflexivity |]. simpl.
  intros H. apply andb_true_iff in H. destruct H as [Hc Hrest].
  rewrite Hc. apply IH. exact Hrest.
Qed.

(** X2.  A reply made of blanks only is not an empty response: it passes
    the emptiness test, is stripped to the empty string, and, [json.loads]
    rejecting the empty string, gets the parse-failure response with
    confidence 0.6, where a reply with no text at all gets the emergency
    response. *)
Theorem blank_reply_takes_parse_tier (request : PriceRecommendationRequest)
    (text : string) (e : Py.exn) :
  generate_content rt (build_pricing_prompt rt request) = Response text ->
  text <> ""%string ->
  forallb Py.isspace (list_ascii_of_string text) = true ->
  json_loads rt "" = inl e ->
  Py.is_JSONDecodeError e = true ->
  get_price_recommendation rt request = parse_fallback rt request
  /\ confidence_score (get_price_recommendation rt request) = Some 0.6.
Proof.
  intros Hgen Hne Hblank Hload Hcls.
  assert (Hstrip : Py.strip text = ""%string).
  { unfold Py.strip. rewrite (lstrip_blank _ Hblank). reflexivity. }
  assert (Heq : get_price_recommendation rt request = parse_fallback rt request).
  { unfold get_price_recommendation, ask_model, parse_reply.
    rewrite Hgen, (eqb_empty_false _ Hne), Hstrip, Hload, Hcls. reflexivity. }
  split; [exact Heq | rewrite Heq; reflexivity].
Qed.

Lemma round2_above (x : Q) : x - 0.005 <= Py.round2 x.
Proof.
  pose proof (round2_near x) as H. apply Qabs_Qle_condition in H. lra.
Qed.

(** X3.  From a cost of 0.03 on, both fallback responses price at least
    20% above cost, the margin the prompt asks of the model, and the
    emergency price is above cost: the rounding of the float product and
    the rounding to cents take less than 0.006 off the 40% or 50% markup. *)
Theorem fallback_prices_keep_margin (request : PriceRecommendationRequest)
    (e : Py.exn) :
  0.03 <= cost_price request ->
  1.2 * cost_price request <= suggested_price (emergency_fallback rt request e)
  /\ 1.2 * cost_price request <= suggested_price (parse_fallback rt request)
  /\ cost_price request < suggested_price (emergency_fallback rt request e).
Proof.
  intros Hcost. cbn [emergency_fallback parse_fallback suggested_price].
  pose proof (round2_above (Py.mul (cost_price request) 1.4)) as H14.
  pose proof (round2_above (Py.mul (cost_price request) 1.5)) as H15.
  pose proof (mul_above (cost_price request) 1.4) as M14.
  pose proof (mul_above (cost_price request) 1.5) as M15.
  repeat split; nra.
Qed.

End TierDispatch.

Section TierDispatchExamples.
Import Models Gemini.
Local Open Scope Q_scope.

Lemma blank_reply_takes_parse_tier_witness :
  generate_content Scenario.blank
    (build_pricing_prompt Scenario.blank (Scenario.request 10))
  = Response "  "
  /\ confidence_score (get_price_recommendation Scenario.blank (Scenario.request 10))
     = Some 0.6
  /\ suggested_price (get_price_recommendation Scenario.blank (Scenario.request 10))
     == 15.
Proof.
  split; [reflexivity |].
  destruct (blank_reply_takes_parse_tier Scenario.blank (Scenario.request 10) "  "
              (Py.Raise Py.JSONDecodeError "Expecting value: line 1 column 1 (char 0)")
              eq_refl ltac:(discriminate) eq_refl eq_refl eq_refl) as [Heq Hconf].
  split; [exact Hconf |]. rewrite Heq. vm_compute. reflexivity.
Defined.

Lemma fallback_prices_keep_margin_witness :
  0.03 <= cost_price (Scenario.request 0.03)
  /\ 1.2 * 0.03
     <= suggested_price
          (emergency_fallback Scenario.unreachable (Scenario.request 0.03)
             (Py.Raise Py.RuntimeError "503 Service Unavailable"))
  /\ suggested_price
       (emergency_fallback Scenario.unreachable (Scenario.request 0.03)
          (Py.Raise Py.RuntimeError "503 Service Unavailable"))
     == 0.04.
Proof.
  assert (Hcost : 0.03 <= cost_price (Scenario.request 0.03)) by (vm_compute; discriminate).
  split; [exact Hcost | split; [| vm_compute; reflexivity]].
  apply (fallback_prices_keep_margin Scenario.unreachable (Scenario.request 0.03)
           (Py.Raise Py.RuntimeError "503 Service Unavailable") Hcost).
Defined.

(** Below that cost the margin can be lost: at a cost of one cent the
    emergency price is one cent. *)
Example no_margin_on_one_cent :
  suggested_price
    (emergency_fallback Scenario.unreachable (Scenario.request 0.01)
       (Py.Raise Py.RuntimeError "503 Service Unavailable"))
  == 0.01.
Proof. vm_compute. reflexivity. Qed.

(** A complete object is returned as pydantic builds it. *)
Example complete_object_is_returned :
  get_price_recommendation Scenario.complete_object (Scenario.request 10)
  = {| suggested_price := 12.5; reasoning := "competitive";
       confidence_score := Some 0.9 |}.
Proof. reflexivity. Qed.

End TierDispatchExamples.

(** ** The files of the local store *)

Section LocalFiles.
Import LocalStorage.

Lemma clean_kept (user_id : string) :
  forallb kept (list_ascii_of_string (clean user_id)) = true.
Proof.
  induction user_id as [| c s IH]; [reflexivity |]. simpl.
  fold (kept c). destruct (kept c) eqn:Hc; [| exact IH].
  simpl. rewrite Hc. exact IH.
Qed.

Lemma clean_of_kept (s : string) :
  forallb kept (list_ascii_of_string s) = true -> clean s = s.
Proof.
  induction s as [| c s IH]; [reflexivity |]. simpl.
  intros H. apply andb_true_iff in H. destruct H as [Hc Hs].
  fold (kept c). rewrite Hc, (IH Hs). reflexivity.
Qed.

(** X4.  For a user id in plain ASCII, the file of the user is
    [local_data/user_<name>.json] with a [<name>] made of ASCII letters,
    digits, hyphens and underscores only, whatever else the user id holds:
    such an id cannot name a file outside the directory or with another
    extension; and the name is a user id that has this very file. *)
Theorem user_file_stays_in_storage_dir (user_id : string) :
  isascii user_id = true ->
  exists name,
    get_user_file_path user_id = ("local_data/user_" +:+ name +:+ ".json")%string
    /\ forallb kept (list_ascii_of_string name) = true
    /\ get_user_file_path name = get_user_file_path user_id.
Proof.
  intros _. exists (clean user_id).
  split; [reflexivity |]. split; [apply clean_kept |].
  unfold get_user_file_path. rewrite (clean_of_kept _ (clean_kept user_id)).
  reflexivity.
Qed.

Lemma same_clean_same_file (a b : string) :
  clean a = clean b -> get_user_file_path a = get_user_file_path b.
Proof. intros H. unfold get_user_file_path. rewrite H. reflexivity. Qed.

Lemma length_of_append (a b : string) :
  String.length (a +:+ b) = (String.length a + String.length b)%nat.
Proof. induction a as [| c a IH]; simpl; [reflexivity | rewrite IH; reflexivity]. Qed.

Lemma append_inv_tail (a b t : string) : (a +:+ t = b +:+ t)%string -> a = b.
Proof.
  revert b. induction a as [| c a IH]; intros [| d b] H; simpl in H.
  - reflexivity.
  - exfalso. apply (f_equal String.length) in H.
    rewrite ?length_of_append in H. simpl in H.
    rewrite ?length_of_append in H. lia.
  - exfalso. apply (f_equal String.length) in H.
    rewrite ?length_of_append in H. simpl in H.
    rewrite ?length_of_append in H. lia.
  - injection H as -> H. f_equal. apply IH. exact H.
Qed.

Lemma append_inv_head (p a b : string) : (p +:+ a = p +:+ b)%string -> a = b.
Proof.
  induction p as [| c p IH]; intros H; [exact H |].
  injection H as H. apply IH. exact H.
Qed.

Lemma other_clean_other_file (a b : string) :
  clean a <> clean b -> get_user_file_path a <> get_user_file_path b.
Proof.
  intros Hne Hpath. apply Hne. unfold get_user_file_path, path_join in Hpath.
  apply append_inv_head, append_inv_head, append_inv_head in Hpath.
  apply append_inv_tail in Hpath. exact Hpath.
Qed.

(** X5.  Users with ids in plain ASCII that are the same once cleaned
    share one file: a record saved for one of them, its file written, is in
    what the store loads for the other, under the saver's [user_id]. *)
Theorem users_with_same_clean_id_share_a_file (clk : Clock) (w : write)
    (disk : gmap string file) (saver reader : Models.User)
    (data : gmap string json) :
  isascii (Models.sub saver) = true ->
  isascii (Models.sub reader) = true ->
  clean (Models.sub saver) = clean (Models.sub reader) ->
  w = Written ->
  let disk' := snd (save_price_suggestion clk w disk saver data) in
  load_user_data disk (Models.sub reader) = load_user_data disk (Models.sub saver)
  /\ load_user_data disk' (Models.sub reader)
     = load_user_data disk' (Models.sub saver)
  /\ exists record,
       In record (load_user_data disk' (Models.sub reader))
       /\ user_id record = Models.sub saver
       /\ suggested_price record = get data "suggested_price".
Proof.
  intros _ _ Hclean -> disk'.
  assert (Hload : forall d, load_user_data d (Models.sub reader)
                            = load_user_data d (Models.sub saver)).
  { intros d. unfold load_user_data.
    rewrite (same_clean_same_file _ _ Hclean). reflexivity. }
  split; [apply Hload | split; [apply Hload |]].
  exists (new_suggestion clk (load_user_data disk (Models.sub saver)) saver data).
  split; [| split; reflexivity].
  rewrite Hload. subst disk'. rewrite load_after_written.
  apply new_suggestion_stored.
Qed.

(** X6.  A save does not touch what the store holds for a user whose
    cleaned id is another, whatever becomes of the write. *)
Theorem save_leaves_other_users_alone (clk : Clock) (w : write)
    (disk : gmap string file) (saver other : Models.User)
    (data : gmap string json) :
  clean (Models.sub saver) <> clean (Models.sub other) ->
  load_user_data (snd (save_price_suggestion clk w disk saver data))
    (Models.sub other)
  = load_user_data disk (Models.sub other).
Proof.
  intros Hne. apply other_clean_other_file in Hne.
  unfold save_price_suggestion, save_user_data, load_user_data at 1 3. simpl.
  destruct w; [| reflexivity |]; rewrite lookup_insert_ne by exact Hne;
    reflexivity.
Qed.

End LocalFiles.

Section LocalFilesExamples.
Import LocalStorage.

Lemma user_file_stays_in_storage_dir_witness :
  isascii "../../etc/passwd" = true
  /\ get_user_file_path "../../etc/passwd" = "local_data/user_etcpasswd.json"%string
  /\ exists name,
       get_user_file_path "../../etc/passwd"
       = ("local_data/user_" +:+ name +:+ ".json")%string
       /\ forallb kept (list_ascii_of_string name) = true.
Proof.
  split; [reflexivity | split; [reflexivity |]].
  destruct (user_file_stays_in_storage_dir "../../etc/passwd" eq_refl)
    as (name & Hpath & Hkept & _).
  exists name. split; [exact Hpath | exact Hkept].
Defined.

Lemma users_with_same_clean_id_share_a_file_witness :
  isascii "auth0|6512" = true
  /\ isascii "auth06512" = true
  /\ clean "auth0|6512" = clean "auth06512"
  /\ Written = Written
  /\ exists record,
       In record
         (load_user_data
            (snd (save_price_suggestion Scenario.clock Written ∅ Scenario.user
                    (Scenario.suggestion_data (JNum 14))))
            "auth06512")
       /\ user_id record = "auth0|6512"%string
       /\ suggested_price record = JNum 14.
Proof.
  assert (Hclean : clean (Models.sub Scenario.user)
                   = clean (Models.sub Scenario.namesake)) by reflexivity.
  split; [reflexivity | split; [reflexivity |]].
  split; [exact Hclean | split; [reflexivity |]].
  destruct (users_with_same_clean_id_share_a_file Scenario.clock Written ∅
              Scenario.user Scenario.namesake (Scenario.suggestion_data (JNum 14))
              eq_refl eq_refl Hclean eq_refl)
    as (_ & _ & record & Hin & Huser & Hprice).
  exists record. split; [exact Hin | split; [exact Huser | exact Hprice]].
Defined.

Lemma save_leaves_other_users_alone_witness :
  clean "auth0|6512" <> clean "google-oauth2|77"
  /\ load_user_data
       (snd (save_price_suggestion Scenario.clock Written ∅ Scenario.user
               (Scenario.suggestion_data (JNum 14))))
       "google-oauth2|77"
     = [].
Proof.
  assert (Hne : clean (Models.sub Scenario.user)
                <> clean (Models.sub Scenario.other_user)) by discriminate.
  split; [exact Hne |].
  rewrite (save_leaves_other_users_alone Scenario.clock Written ∅ Scenario.user
             Scenario.other_user (Scenario.suggestion_data (JNum 14)) Hne).
  reflexivity.
Defined.

End LocalFilesExamples.

(** ** Listing the local store *)

Section LocalListing.
Import LocalStorage.

(** A page with bounds that are not negative is a window of the list. *)
Lemma slice_window {A} (l : list A) (skip limit : Z) :
  (0 <= skip)%Z -> (0 <= limit)%Z ->
  Py.slice l skip (skip + limit) = take (Z.to_nat limit) (drop (Z.to_nat skip) l).
Proof.
  intros Hskip Hlimit. unfold Py.slice, Py.slice_index.
  destruct (skip <? 0)%Z eqn:H1; [apply Z.ltb_lt in H1; lia |].
  destruct (skip + limit <? 0)%Z eqn:H2; [apply Z.ltb_lt in H2; lia |].
  destruct (Z_le_gt_dec skip (Z.of_nat (length l))) as [Hin | Hout].
  - rewrite (Z.min_l skip) by lia.
    destruct (Z_le_gt_dec (skip + limit) (Z.of_nat (length l))) as [Hfit | Hover].
    + rewrite Z.min_l by lia. f_equal. lia.
    + rewrite Z.min_r by lia.
      rewrite (take_ge (drop (Z.to_nat skip) l) (Z.to_nat limit))
        by (rewrite length_drop; lia).
      apply take_ge. rewrite length_drop. lia.
  - rewrite (Z.min_r skip) by lia. rewrite Z.min_r by lia.
    rewrite Z.sub_diag. simpl.
    rewrite (drop_ge l (Z.to_nat skip)) by lia. rewrite take_nil. reflexivity.
Qed.

(** X7.  With [skip] and [limit] not negative, the page of the local
    listing holds [limit] records, or as many as are left after [skip] when
    these are fewer: never more than [limit]. *)
Theorem listing_page_length (disk : gmap string file) (user : Models.User)
    (limit skip : Z) :
  (0 <= skip)%Z -> (0 <= limit)%Z ->
  let stored := Z.of_nat (length (load_user_data disk (Models.sub user))) in
  Z.of_nat (length (get_user_suggestions disk user limit skip))
  = Z.min limit (Z.max 0 (stored - skip)).
Proof.
  intros Hskip Hlimit stored. unfold get_user_suggestions.
  rewrite slice_window by assumption.
  rewrite length_take, length_drop, sort_newest_first_length.
  subst stored. lia.
Qed.

(** X8.  Pages follow each other without gap or overlap: the page of [a]
    records after [skip], followed by the page of [b] records after
    [skip + a], is the page of [a + b] records after [skip]. *)
Theorem listing_pages_tile (disk : gmap string file) (user : Models.User)
    (skip a b : Z) :
  (0 <= skip)%Z -> (0 <= a)%Z -> (0 <= b)%Z ->
  (get_user_suggestions disk user a skip
   ++ get_user_suggestions disk user b (skip + a))%list
  = get_user_suggestions disk user (a + b) skip.
Proof.
  intros Hskip Ha Hb. unfold get_user_suggestions.
  rewrite !slice_window by lia.
  rewrite Z2Nat.inj_add by lia. rewrite <- drop_drop.
  rewrite Z2Nat.inj_add by lia. apply take_take_drop.
Qed.

Lemma insert_newest_first_sorted (x : Suggestion) (l : list Suggestion) :
  Sorted not_older l -> Sorted not_older (insert_newest_first x l).
Proof.
  induction l as [| y l IH]; intros Hl; simpl.
  - repeat constructor.
  - destruct (String.leb (timestamp y) (timestamp x)) eqn:Hyx.
    + constructor; [exact Hl | constructor; exact Hyx].
    + apply Sorted_inv in Hl. destruct Hl as [Hl Hhd].
      constructor; [apply IH; exact Hl |].
      assert (Hxy : not_older y x).
      { unfold not_older.
        destruct (String.leb_total (timestamp x) (timestamp y)) as [H | H];
          [exact H | congruence]. }
      destruct l as [| z l]; simpl.
      * constructor. exact Hxy.
      * destruct (String.leb (timestamp z) (timestamp x));
          constructor; [exact Hxy |].
        inversion Hhd; assumption.
Qed.

Lemma sort_newest_first_sorted (l : list Suggestion) :
  Sorted not_older (sort_newest_first l).
Proof.
  induction l as [| x l IH]; simpl; [constructor |].
  apply insert_newest_first_sorted. exact IH.
Qed.

Lemma sorted_drop {A} (R : A -> A -> Prop) (n : nat) (l : list A) :
  Sorted R l -> Sorted R (drop n l).
Proof.
  revert l. induction n as [| n IH]; intros l Hl; [exact Hl |].
  destruct l as [| x l]; [constructor |]. simpl.
  apply IH. apply Sorted_inv in Hl. tauto.
Qed.

Lemma sorted_take {A} (R : A -> A -> Prop) (n : nat) (l : list A) :
  Sorted R l -> Sorted R (take n l).
Proof.
  revert l. induction n as [| n IH]; intros l Hl; [constructor |].
  destruct l as [| x l]; [constructor |]. simpl.
  apply Sorted_inv in Hl. destruct Hl as [Hl Hhd].
  constructor; [apply IH; exact Hl |].
  destruct n as [| n]; [constructor |].
  destruct l as [| y l]; [constructor |]. simpl.
  constructor. inversion Hhd; assumption.
Qed.

(** X9.  Every page of the local listing, for any [limit] and [skip], has
    its records newest first: no record stands before one whose timestamp
    is above its own in the order of strings. *)
Theorem listing_is_newest_first (disk : gmap string file) (user : Models.User)
    (limit skip : Z) :
  Sorted not_older (get_user_suggestions disk user limit skip).
Proof.
  unfold get_user_suggestions, Py.slice.
  apply sorted_take, sorted_drop, sort_newest_first_sorted.
Qed.

Lemma insert_newest_first_perm (x : Suggestion) (l : list Suggestion) :
  insert_newest_first x l ≡ₚ x :: l.
Proof.
  induction l as [| y l IH]; simpl; [reflexivity |].
  destruct (String.leb (timestamp y) (timestamp x)); [reflexivity |].
  rewrite IH. apply perm_swap.
Qed.

Lemma sort_newest_first_perm (l : list Suggestion) : sort_newest_first l ≡ₚ l.
Proof.
  induction l as [| x l IH]; simpl; [reflexivity |].
  rewrite insert_newest_first_perm, IH. reflexivity.
Qed.

(** X10.  A page from the start that is long enough for all the stored
    records lists each of them once: it is a rearrangement of the stored
    list. *)
Theorem listing_all_is_a_rearrangement (disk : gmap string file)
    (user : Models.User) (limit : Z) :
  (Z.of_nat (length (load_user_data disk (Models.sub user))) <= limit)%Z ->
  get_user_suggestions disk user limit 0 ≡ₚ load_user_data disk (Models.sub user).
Proof.
  intros Hlimit. unfold get_user_suggestions.
  rewrite slice_whole by (rewrite sort_newest_first_length; exact Hlimit).
  apply sort_newest_first_perm.
Qed.

End LocalListing.

Section LocalListingExamples.
Import LocalStorage.

Lemma listing_page_length_witness :
  (0 <= 95)%Z /\ (0 <= 50)%Z
  /\ length (get_user_suggestions (run_saves ∅ Scenario.hundred_saves)
               Scenario.user 50 95)
     = 5%nat.
Proof.
  split; [discriminate | split; [discriminate |]].
  apply Nat2Z.inj.
  rewrite (listing_page_length (run_saves ∅ Scenario.hundred_saves) Scenario.user
             50 95 ltac:(discriminate) ltac:(discriminate)).
  vm_compute. reflexivity.
Defined.

Lemma listing_pages_tile_witness :
  (0 <= 10)%Z /\ (0 <= 20)%Z /\ (0 <= 30)%Z
  /\ (get_user_suggestions (run_saves ∅ Scenario.hundred_saves) Scenario.user 20 10
      ++ get_user_suggestions (run_saves ∅ Scenario.hundred_saves) Scenario.user 30 30)%list
     = get_user_suggestions (run_saves ∅ Scenario.hundred_saves) Scenario.user 50 10.
Proof.
  split; [discriminate | split; [discriminate | split; [discriminate |]]].
  apply (listing_pages_tile (run_saves ∅ Scenario.hundred_saves) Scenario.user
           10 20 30); discriminate.
Defined.

Lemma listing_all_is_a_rearrangement_witness :
  (Z.of_nat (length (load_user_data (Scenario.disk_with [JNum 10; JNum 20])
                       "auth0|6512")) <= 50)%Z
  /\ get_user_suggestions (Scenario.disk_with [JNum 10; JNum 20]) Scenario.user 50 0
     ≡ₚ load_user_data (Scenario.disk_with [JNum 10; JNum 20]) "auth0|6512".
Proof.
  assert (Hlimit : (Z.of_nat (length (load_user_data
                                        (Scenario.disk_with [JNum 10; JNum 20])
                                        (Models.sub Scenario.user))) <= 50)%Z)
    by (vm_compute; discriminate).
  split; [exact Hlimit |].
  apply (listing_all_is_a_rearrangement (Scenario.disk_with [JNum 10; JNum 20])
           Scenario.user 50 Hlimit).
Defined.

End LocalListingExamples.

(** ** What a save leaves in the file *)

Section LocalSaves.
Import LocalStorage.

(** X11.  A save whose file is written leaves the newest 99 of the former
    records, in their order, followed by the new record: the file never
    shrinks below what it held unless it held 100, and the record just
    saved is always its last. *)
Theorem written_save_keeps_newest_99 (clk : Clock) (w : write)
    (disk : gmap string file) (user : Models.User) (data : gmap string json) :
  w = Written ->
  let old := load_user_data disk (Models.sub user) in
  let new := load_user_data (snd (save_price_suggestion clk w disk user data))
               (Models.sub user) in
  new = (drop (length old - 99) old ++ [new_suggestion clk old user data])%list
  /\ length new = Nat.min (S (length old)) 100.
Proof.
  intros -> old new.
  assert (Hnew : new = (drop (length old - 99) old
                        ++ [new_suggestion clk old user data])%list).
  { subst new. rewrite load_after_written, slice_from_last_100. fold old.
    rewrite length_app. simpl.
    replace (length old + 1 - 100)%nat with (length old - 99)%nat by lia.
    apply drop_app_le. lia. }
  split; [exact Hnew |].
  rewrite Hnew, length_app, length_drop. simpl. lia.
Qed.

Lemma saved_id (clk : Clock) (w : write) (disk : gmap string file)
    (user : Models.User) (data : gmap string json) :
  fst (save_price_suggestion clk w disk user data)
  = ("local_" +:+ pretty (length (load_user_data disk (Models.sub user)))
     +:+ "_" +:+ pretty (now_timestamp clk))%string.
Proof. reflexivity. Qed.

(** X12.  Ids are not unique at the cap: the id is made of the number of
    records loaded and of the second of the clock, so with 100 records
    stored two saves in a row within one second get the same id, the first
    being written. *)
Theorem ids_repeat_at_the_cap (clk1 clk2 : Clock) (w1 w2 : write)
    (disk : gmap string file) (user : Models.User) (data1 data2 : gmap string json) :
  length (load_user_data disk (Models.sub user)) = 100%nat ->
  w1 = Written ->
  now_timestamp clk1 = now_timestamp clk2 ->
  let first := save_price_suggestion clk1 w1 disk user data1 in
  let second := save_price_suggestion clk2 w2 (snd first) user data2 in
  fst first = fst second
  /\ fst first = ("local_100_" +:+ pretty (now_timestamp clk1))%string.
Proof.
  intros Hlen -> Hclock first second.
  assert (Hlen' : length (load_user_data (snd first) (Models.sub user)) = 100%nat).
  { subst first. rewrite load_after_written, slice_from_last_100.
    rewrite length_drop, !length_app, Hlen. reflexivity. }
  subst second. rewrite (saved_id clk2), Hlen'. subst first.
  rewrite (saved_id clk1), Hlen, Hclock. split; reflexivity.
Qed.

(** X13.  A write torn midway costs the user the whole history: the file
    no longer loads, the store answers with the empty list, and the next
    save that is written leaves a file with that one record, numbered 0. *)
Theorem torn_write_loses_history (clk1 clk2 : Clock) (disk : gmap string file)
    (user : Models.User) (data1 data2 : gmap string json) :
  let torn := snd (save_price_suggestion clk1 Torn disk user data1) in
  let next := save_price_suggestion clk2 Written torn user data2 in
  load_user_data torn (Models.sub user) = []
  /\ get_user_suggestions torn user 50 0 = []
  /\ load_user_data (snd next) (Models.sub user)
     = [new_suggestion clk2 [] user data2]
  /\ fst next = ("local_0_" +:+ pretty (now_timestamp clk2))%string.
Proof.
  intros torn next.
  assert (Hload : load_user_data torn (Models.sub user) = []).
  { subst torn. unfold save_price_suggestion, save_user_data, load_user_data at 1.
    simpl. rewrite lookup_insert_eq. reflexivity. }
  split; [exact Hload |].
  split; [unfold get_user_suggestions; rewrite Hload; reflexivity |].
  subst next. split.
  - rewrite load_after_written, Hload. reflexivity.
  - unfold save_price_suggestion. simpl. rewrite Hload. reflexivity.
Qed.

End LocalSaves.

Section LocalSavesExamples.
Import LocalStorage.

Lemma written_save_keeps_newest_99_witness :
  Written = Written
  /\ length (load_user_data
               (snd (save_price_suggestion Scenario.clock Written
                       (run_saves ∅ Scenario.hundred_saves) Scenario.user
                       (Scenario.suggestion_data (JNum 15))))
               "auth0|6512")
     = 100%nat.
Proof.
  split; [reflexivity |].
  destruct (written_save_keeps_newest_99 Scenario.clock Written
              (run_saves ∅ Scenario.hundred_saves) Scenario.user
              (Scenario.suggestion_data (JNum 15)) eq_refl) as [_ Hlen].
  refine (eq_trans Hlen _). vm_compute. reflexivity.
Defined.

Lemma ids_repeat_at_the_cap_witness :
  length (load_user_data (run_saves ∅ Scenario.hundred_saves) "auth0|6512") = 100%nat
  /\ fst (save_price_suggestion Scenario.clock Written
            (run_saves ∅ Scenario.hundred_saves) Scenario.user
            (Scenario.suggestion_data (JNum 15)))
     = fst (save_price_suggestion Scenario.clock Written
              (snd (save_price_suggestion Scenario.clock Written
                      (run_saves ∅ Scenario.hundred_saves) Scenario.user
                      (Scenario.suggestion_data (JNum 15))))
              Scenario.user (Scenario.suggestion_data (JNum 16))).
Proof.
  assert (Hlen : length (load_user_data (run_saves ∅ Scenario.hundred_saves)
                           (Models.sub Scenario.user)) = 100%nat)
    by (vm_compute; reflexivity).
  split; [exact Hlen |].
  apply (ids_repeat_at_the_cap Scenario.clock Scenario.clock Written Written
           (run_saves ∅ Scenario.hundred_saves) Scenario.user
           (Scenario.suggestion_data (JNum 15)) (Scenario.suggestion_data (JNum 16))
           Hlen eq_refl eq_refl).
Defined.

End LocalSavesExamples.

(** ** Reading one suggestion *)

Section ById.
Import Db.

(** X15.  [get_suggestion_by_id] hands out a document only to its owner:
    what it returns carries the caller's [sub] as [user_id], under the id
    asked for (in the spelling of the driver), and only for an id that
    [ObjectId.is_valid] accepts. *)
Theorem by_id_returns_own_documents_only (answer : find_one) (st : Backends)
    (suggestion_id : string) (user : Models.User)
    (suggestion : LocalStorage.Suggestion) :
  get_suggestion_by_id answer st suggestion_id user = inr (Some suggestion) ->
  LocalStorage.user_id suggestion = Models.sub user
  /\ LocalStorage._id suggestion = object_id suggestion_id
  /\ is_valid suggestion_id = true.
Proof.
  unfold get_suggestion_by_id.
  destruct (database st) as [collection |]; [| discriminate].
  destruct (is_valid suggestion_id); [| discriminate]. simpl.
  destruct answer as [e |]; [discriminate |].
  destruct (List.find (matches suggestion_id user) collection) as [d |] eqn:Hfind;
    [| discriminate].
  intros [= <-]. apply find_some in Hfind. destruct Hfind as [_ Hmatch].
  unfold matches in Hmatch. apply andb_true_iff in Hmatch.
  destruct Hmatch as [Hid Huser].
  apply String.eqb_eq in Hid. apply String.eqb_eq in Huser.
  split; [exact Huser | split; [exact Hid | reflexivity]].
Qed.

Lemma find_after_misses {A} (f : A -> bool) (l k : list A) :
  (forall x, In x l -> f x = false) -> List.find f (l ++ k)%list = List.find f k.
Proof.
  induction l as [| x l IH]; intros Hmiss; [reflexivity |]. simpl.
  rewrite (Hmiss x (or_introl eq_refl)). apply IH.
  intros y Hy. apply Hmiss. right. exact Hy.
Qed.

(** X16.  Insert, then fetch: after a save that the primary store takes
    under an id it did not hold, in the driver's own spelling, the owner
    gets the document back by that id, with the payload's
    [suggested_price] and [reasoning]; any caller with another [sub] gets
    nothing. *)
Theorem insert_then_fetch_by_id (clk : LocalStorage.Clock) (w : LocalStorage.write)
    (collection : list (string * Document)) (files : gmap string LocalStorage.file)
    (inserted_id : string) (user stranger : Models.User) (data : gmap string json) :
  is_valid inserted_id = true ->
  object_id inserted_id = inserted_id ->
  (forall d, In d collection -> fst d <> inserted_id) ->
  Models.sub stranger <> Models.sub user ->
  let st := {| database := Some collection; disk := files |} in
  let saved := save_price_suggestion clk (Inserted inserted_id) w st user data in
  fst saved = inserted_id
  /\ (exists suggestion,
        get_suggestion_by_id FindOneAnswers (snd saved) inserted_id user
        = inr (Some suggestion)
        /\ LocalStorage.suggested_price suggestion
           = LocalStorage.get data "suggested_price"
        /\ LocalStorage.reasoning suggestion = LocalStorage.get data "reasoning")
  /\ get_suggestion_by_id FindOneAnswers (snd saved) inserted_id stranger = inr None.
Proof.
  intros Hvalid Hspelling Hfresh Hstranger st saved.
  subst saved st. unfold save_price_suggestion. simpl.
  destruct (LocalStorage.save_price_suggestion clk w files user data) as [id files'].
  split; [reflexivity |].
  unfold get_suggestion_by_id. simpl. rewrite Hvalid. simpl.
  assert (Hmiss : forall u d, In d collection -> matches inserted_id u d = false).
  { intros u d Hd. unfold matches. rewrite Hspelling.
    apply andb_false_iff. left. apply String.eqb_neq. apply Hfresh. exact Hd. }
  rewrite !find_after_misses by (apply Hmiss). simpl.
  unfold matches. simpl. rewrite Hspelling, !String.eqb_refl. simpl.
  split; [eexists; split; [reflexivity | split; reflexivity] |].
  apply String.eqb_neq in Hstranger. rewrite String.eqb_sym in Hstranger.
  rewrite Hstranger. reflexivity.
Qed.

Lemma local_id_is_no_object_id (clk : LocalStorage.Clock) (w : LocalStorage.write)
    (files : gmap string LocalStorage.file) (user : Models.User)
    (data : gmap string json) :
  is_valid (fst (LocalStorage.save_price_suggestion clk w files user data)) = false.
Proof. unfold is_valid. apply andb_false_r. Qed.

(** X17.  A record saved through the fallback cannot be fetched by its id:
    the id the local store generates is not one [ObjectId.is_valid]
    accepts, so, in whatever state the backends are later,
    [GET /history/{id}] answers 404 when the primary store is connected
    and 500 when it is not; the local store is never consulted. *)
Theorem fallback_ids_do_not_resolve (clk : LocalStorage.Clock) (ins : insert)
    (w : LocalStorage.write) (st later : Backends) (user reader : Models.User)
    (data : gmap string json) (answer : find_one) :
  database st = None \/ (exists e, ins = InsertRaises e) ->
  let id := fst (save_price_suggestion clk ins w st user data) in
  is_valid id = false
  /\ exists http_error,
       Router.get_suggestion_detail answer later id reader = inl http_error
       /\ Router.status_code http_error
          = match database later with Some _ => 404%Z | None => 500%Z end.
Proof.
  intros Hdown id.
  assert (Hid : id = fst (LocalStorage.save_price_suggestion clk w (disk st) user data)).
  { subst id. unfold save_price_suggestion.
    destruct (LocalStorage.save_price_suggestion clk w (disk st) user data)
      as [local_id files'].
    destruct (database st) as [collection |]; [| reflexivity].
    destruct Hdown as [Hnone | [e ->]]; [discriminate Hnone | reflexivity]. }
  assert (Hinvalid : is_valid id = false)
    by (rewrite Hid; apply local_id_is_no_object_id).
  split; [exact Hinvalid |].
  unfold Router.get_suggestion_detail, get_suggestion_by_id.
  destruct (database later) as [collection |].
  - rewrite Hinvalid. simpl. eexists. split; reflexivity.
  - eexists. split; reflexivity.
Qed.

End ById.

Section ByIdExamples.
Import Db.

Lemma insert_then_fetch_by_id_witness :
  is_valid Scenario.oid = true
  /\ object_id Scenario.oid = Scenario.oid
  /\ (exists suggestion,
        get_suggestion_by_id FindOneAnswers
          (snd (save_price_suggestion Scenario.clock (Inserted Scenario.oid)
                  LocalStorage.Written Scenario.connected Scenario.user
                  (Scenario.suggestion_data (JNum 14))))
          Scenario.oid Scenario.user
        = inr (Some suggestion)
        /\ LocalStorage.suggested_price suggestion = JNum 14)
  /\ get_suggestion_by_id FindOneAnswers
       (snd (save_price_suggestion Scenario.clock (Inserted Scenario.oid)
               LocalStorage.Written Scenario.connected Scenario.user
               (Scenario.suggestion_data (JNum 14))))
       Scenario.oid Scenario.other_user
     = inr None.
Proof.
  assert (Hvalid : is_valid Scenario.oid = true) by reflexivity.
  assert (Hspelling : object_id Scenario.oid = Scenario.oid) by reflexivity.
  split; [exact Hvalid | split; [exact Hspelling |]].
  destruct (insert_then_fetch_by_id Scenario.clock LocalStorage.Written [] ∅
              Scenario.oid Scenario.user Scenario.other_user
              (Scenario.suggestion_data (JNum 14)) Hvalid Hspelling
              ltac:(intros d []) ltac:(discriminate))
    as (_ & (suggestion & Hfetch & Hprice & _) & Hstranger).
  split; [| exact Hstranger].
  exists suggestion. split; [exact Hfetch | exact Hprice].
Defined.

Lemma by_id_returns_own_documents_only_witness :
  exists suggestion,
    get_suggestion_by_id FindOneAnswers
      (snd (save_price_suggestion Scenario.clock (Inserted Scenario.oid)
              LocalStorage.Written Scenario.connected Scenario.user
              (Scenario.suggestion_data (JNum 14))))
      "65F0A1B2C3D4E5F601234567" Scenario.user
    = inr (Some suggestion)
    /\ LocalStorage.user_id suggestion = "auth0|6512"%string
    /\ LocalStorage._id suggestion = Scenario.oid.
Proof.
  eexists. split; [reflexivity |].
  destruct (by_id_returns_own_documents_only FindOneAnswers
              (snd (save_price_suggestion Scenario.clock (Inserted Scenario.oid)
                      LocalStorage.Written Scenario.connected Scenario.user
                      (Scenario.suggestion_data (JNum 14))))
              "65F0A1B2C3D4E5F601234567" Scenario.user _ eq_refl)
    as (Huser & Hid & _).
  split; [exact Huser | exact Hid].
Defined.

Lemma fallback_ids_do_not_resolve_witness :
  (database Scenario.local_only = None
   \/ exists e, Inserted Scenario.oid = InsertRaises e)
  /\ exists http_error,
       Router.get_suggestion_detail FindOneAnswers Scenario.connected
         "local_0_1700000000" Scenario.user
       = inl http_error
       /\ Router.status_code http_error = 404%Z.
Proof.
  assert (Hdown : database Scenario.local_only = None
                  \/ exists e, Inserted Scenario.oid = InsertRaises e)
    by (left; reflexivity).
  split; [exact Hdown |].
  destruct (fallback_ids_do_not_resolve Scenario.clock (Inserted Scenario.oid)
              LocalStorage.Written Scenario.local_only Scenario.connected
              Scenario.user Scenario.user (Scenario.suggestion_data (JNum 14))
              FindOneAnswers Hdown) as (_ & http_error & Hget & Hcode).
  exists http_error. split; [exact Hget | exact Hcode].
Defined.

End ByIdExamples.

(** ** Persisting from the endpoints *)

Section Persisting.
Import Models Router.

Variable rt : Gemini.Runtime.
Variable py_float : string -> option Q.

Lemma batch_document_of_suggestion (user : User) (now : string)
    (request : PriceRecommendationRequest)
    (recommendation : PriceRecommendationResponse) :
  exists document,
    Db.batch_document user now (suggestion_data_of request recommendation)
    = inr document
    /\ Db.user_id document = sub user.
Proof.
  unfold Db.batch_document, Db.getitem, suggestion_data_of.
  eexists. split.
  - simplify_map_eq. reflexivity.
  - reflexivity.
Qed.

(** The documents of a batch built by the endpoint: none of its
    dictionaries lacks a key. *)
Lemma batch_documents_of_suggestions (user : User) (utcnow : nat -> string)
    (to_save : list (PriceRecommendationRequest * PriceRecommendationResponse)) :
  forall index,
  exists documents,
    Db.batch_documents user utcnow index
      (map (fun p => suggestion_data_of (fst p) (snd p)) to_save)
    = inr documents
    /\ length documents = length to_save
    /\ Forall (fun d => Db.user_id d = sub user) documents.
Proof.
  induction to_save as [| p to_save IH]; intros index.
  - exists []. repeat split. constructor.
  - destruct (batch_document_of_suggestion user (utcnow index) (fst p) (snd p))
      as (document & Hdoc & Huser).
    destruct (IH (S index)) as (documents & Hdocs & Hlen & Hall).
    exists (document :: documents). simpl.
    rewrite Hdoc. simpl. rewrite Hdocs. simpl.
    split; [reflexivity | split; [congruence | constructor; assumption]].
Qed.

Lemma zip_keeps_forall {A B} (P : B -> Prop) (ids : list A) (l : list B) :
  Forall P l -> Forall (fun d => P (snd d)) (zip ids l).
Proof.
  intros Hall. revert ids. induction Hall as [| x l Hx Hl IH]; intros ids.
  - destruct ids; constructor.
  - destruct ids as [| i ids]; [constructor |]. simpl.
    constructor; [exact Hx | apply IH].
Qed.

Lemma save_batch_spares_the_disk (utcnow : nat -> string) (ins : Db.insert_many)
    (st : Db.Backends) (current_user : User)
    (to_save : list (PriceRecommendationRequest * PriceRecommendationResponse)) :
  Db.disk (save_batch utcnow ins st current_user to_save) = Db.disk st
  /\ (Db.database st = None -> save_batch utcnow ins st current_user to_save = st).
Proof.
  unfold save_batch. destruct to_save as [| p to_save]; [split; reflexivity |].
  unfold Db.batch_save_suggestions.
  destruct (Db.database st) as [collection |]; [| split; reflexivity].
  split; [| discriminate].
  destruct (Db.batch_documents _ _ _ _) as [e | [| d ds]]; try reflexivity.
  destruct ins; reflexivity.
Qed.

(** X18.  The batch of [POST /upload-csv] is persisted through the primary
    store only.  The response is the one computed from the rows, whatever
    becomes of the save; the local file store is never written; and with
    the primary store unavailable the backends are as before, though the
    response reports its successes. *)
Theorem csv_batch_is_saved_to_primary_only (utcnow : nat -> string)
    (ins : Db.insert_many) (st : Db.Backends) (current_user : User)
    (filename : string) (contents : read_csv) :
  let out := upload_csv_and_save rt py_float utcnow ins st current_user
               filename contents in
  fst out = upload_csv rt py_float filename contents
  /\ Db.disk (snd out) = Db.disk st
  /\ match Db.database st with
     | None => snd out = st
     | Some _ => True
     end.
Proof.
  intros out. subst out. unfold upload_csv_and_save.
  destruct (upload_csv rt py_float filename contents) as [err | response].
  - destruct (Db.database st); repeat split.
  - destruct contents as [| | e | df];
      try (destruct (Db.database st); repeat split; fail).
    cbn [fst snd].
    destruct (save_batch_spares_the_disk utcnow ins st current_user
                (to_save_of rt py_float df)) as [Hdisk Hnone].
    split; [reflexivity | split; [exact Hdisk |]].
    destruct (Db.database st); [exact I | apply Hnone; reflexivity].
Qed.

(** X19.  With the primary store connected and the insert taking the
    batch, the collection grows by one document for each row that
    succeeded, each under the caller's [sub]: as many as the response
    counts in [successful_predictions]. *)
Theorem csv_batch_stores_one_document_per_success (utcnow : nat -> string)
    (inserted_ids : list string) (collection : list (string * Db.Document))
    (files : gmap string LocalStorage.file) (current_user : User)
    (filename : string) (df : DataFrame) (response : CSVUploadResponse) :
  upload_csv rt py_float filename (Frame df) = inr response ->
  Z.of_nat (length inserted_ids) = successful_predictions response ->
  let st := {| Db.database := Some collection; Db.disk := files |} in
  let out := upload_csv_and_save rt py_float utcnow (Db.InsertedMany inserted_ids)
               st current_user filename (Frame df) in
  exists stored,
    Db.database (snd out) = Some (collection ++ stored)%list
    /\ Z.of_nat (length stored) = successful_predictions response
    /\ map fst stored = inserted_ids
    /\ Forall (fun d => Db.user_id (snd d) = sub current_user) stored.
Proof.
  intros Hup Hids st out. subst out. unfold upload_csv_and_save. rewrite Hup.
  cbn [snd].
  assert (Hcount : Z.of_nat (length (to_save_of rt py_float df))
                   = successful_predictions response).
  { unfold upload_csv in Hup. unfold to_save_of.
    destruct (negb (endswith filename ".csv")); [discriminate Hup |].
    destruct (List.filter _ required_columns); [| discriminate Hup].
    destruct (iterrows rt py_float (rows df) _) as [e | t] eqn:Hloop;
      [discriminate Hup |].
    injection Hup as <-. cbn [successful_predictions].
    destruct (iterrows_tally rt py_float (rows df) _ t Hloop) as (_ & Hs & Hsave & _).
    cbn in Hsave, Hs. rewrite Hs. lia. }
  unfold save_batch.
  destruct (to_save_of rt py_float df) as [| p to_save] eqn:Hto.
  - exists []. rewrite app_nil_r. simpl in Hcount.
    destruct inserted_ids; [| simpl in Hids; lia].
    repeat split; [exact Hcount | constructor].
  - unfold Db.batch_save_suggestions. cbn [Db.database st].
    destruct (batch_documents_of_suggestions current_user utcnow (p :: to_save) 0)
      as (documents & Hdocs & Hlen & Hall).
    rewrite Hdocs.
    destruct documents as [| d ds]; [discriminate Hlen |].
    cbn [snd Db.database].
    exists (zip inserted_ids (d :: ds)).
    assert (Hsame : length inserted_ids = length (d :: ds)) by lia.
    split; [reflexivity |].
    split; [rewrite length_zip_with; lia |].
    split; [apply fst_zip; lia |].
    exact (zip_keeps_forall (fun d => Db.user_id d = sub current_user)
             inserted_ids (d :: ds) Hall).
Qed.

End Persisting.

Section PersistingRecommendations.
Import Models Router.

Variable rt : Gemini.Runtime.

(** X20.  [POST /recommend-price-auth] answers what
    [POST /recommend-price] answers, and stores that recommendation, from
    whichever tier it comes: either the primary store takes one document
    carrying the price returned and the disk is as before, or the primary
    collection is as before and, the local file once written, the user's
    file holds a record carrying the price returned. *)
Theorem authenticated_recommendation_is_stored (clk : LocalStorage.Clock)
    (ins : Db.insert) (w : LocalStorage.write) (st : Db.Backends)
    (request : PriceRecommendationRequest) (current_user : User) :
  let out := recommend_price_authenticated rt clk ins w st request current_user in
  let price := JNum (suggested_price (Gemini.get_price_recommendation rt request)) in
  fst out = recommend_price rt request
  /\ ((exists collection inserted_id document,
         Db.database st = Some collection
         /\ ins = Db.Inserted inserted_id
         /\ Db.database (snd out) = Some (collection ++ [(inserted_id, document)])%list
         /\ Db.disk (snd out) = Db.disk st
         /\ Db.user_id document = sub current_user
         /\ Db.suggested_price document = price)
      \/ (Db.database (snd out) = Db.database st
          /\ (w = LocalStorage.Written ->
              exists record,
                In record (LocalStorage.load_user_data (Db.disk (snd out))
                             (sub current_user))
                /\ LocalStorage.user_id record = sub current_user
                /\ LocalStorage.suggested_price record = price))).
Proof.
  intros out price. split; [reflexivity |].
  subst out. unfold recommend_price_authenticated. cbn [snd].
  set (recommendation := Gemini.get_price_recommendation rt request) in *.
  set (data := suggestion_data_of request recommendation).
  assert (Hprice : LocalStorage.get data "suggested_price" = price).
  { subst data price. unfold LocalStorage.get, suggestion_data_of.
    simplify_map_eq. reflexivity. }
  assert (Hlocal :
    let local := LocalStorage.save_price_suggestion clk w (Db.disk st)
                   current_user data in
    w = LocalStorage.Written ->
    exists record,
      In record (LocalStorage.load_user_data (snd local) (sub current_user))
      /\ LocalStorage.user_id record = sub current_user
      /\ LocalStorage.suggested_price record = price).
  { intros local ->. subst local.
    exists (LocalStorage.new_suggestion clk
              (LocalStorage.load_user_data (Db.disk st) (sub current_user))
              current_user data).
    split; [| split; [reflexivity | exact Hprice]].
    rewrite load_after_written. apply new_suggestion_stored. }
  unfold Db.save_price_suggestion.
  destruct (LocalStorage.save_price_suggestion clk w (Db.disk st) current_user data)
    as [id files'] eqn:Hsave.
  cbn [snd] in Hlocal.
  destruct (Db.database st) as [collection |] eqn:Hdb.
  - destruct ins as [inserted_id | e].
    + left. exists collection, inserted_id. eexists.
      split; [reflexivity |]. split; [reflexivity |]. split; [reflexivity |].
      split; [reflexivity |]. split; [reflexivity | exact Hprice].
    + right. split; [reflexivity | exact Hlocal].
  - right. split; [reflexivity | exact Hlocal].
Qed.

Variable py_float : string -> option Q.

(** X21.  A CSV that lacks a required column is answered by status 500,
    not 400: the [HTTPException] with status 400 is raised inside the
    [try] whose last handler catches every exception and answers 500 with
    the detail of a processing error. *)
Theorem missing_columns_are_a_server_error (filename : string) (df : DataFrame)
    (col : string) :
  endswith filename ".csv" = true ->
  In col required_columns ->
  ~ In col (columns df) ->
  exists http_error,
    upload_csv rt py_float filename (Frame df) = inl http_error
    /\ status_code http_error = 500%Z
    /\ String.prefix "Error processing CSV file: " (detail http_error) = true.
Proof.
  intros Hname Hreq Hmiss. unfold upload_csv. rewrite Hname. simpl negb. cbv iota.
  destruct (List.filter (fun c => negb (existsb (String.eqb c) (columns df)))
              required_columns) as [| c cs] eqn:Hfilter.
  - exfalso.
    assert (Hin : In col (List.filter
                            (fun c => negb (existsb (String.eqb c) (columns df)))
                            required_columns)).
    { apply filter_In. split; [exact Hreq |].
      rewrite (existsb_eqb_absent _ _ Hmiss). reflexivity. }
    rewrite Hfilter in Hin. destruct Hin.
  - eexists. split; [reflexivity |]. split; [reflexivity |].
    vm_compute. reflexivity.
Qed.

(** X22.  Every successful entry of a batch response carries a request
    that passed validation, with a cost above 0 and a competitor price
    above 0 if it has one, and the price, reasoning and confidence that
    [get_price_recommendation] gives for that very request. *)
Theorem successful_entries_are_valid (filename : string) (contents : read_csv)
    (response : CSVUploadResponse) (row_number : Q)
    (request : PriceRecommendationRequest) (price : Q) (why : string)
    (confidence : option Q) :
  upload_csv rt py_float filename contents = inr response ->
  In (Success row_number request price why confidence) (results response) ->
  (0 < cost_price request)%Q
  /\ (forall c, competitor_price request = Some c -> (0 < c)%Q)
  /\ price = suggested_price (Gemini.get_price_recommendation rt request)
  /\ why = reasoning (Gemini.get_price_recommendation rt request)
  /\ confidence = confidence_score (Gemini.get_price_recommendation rt request).
Proof.
  intros Hup Hin. unfold upload_csv in Hup.
  destruct (negb (endswith filename ".csv")); [discriminate Hup |].
  destruct contents as [| | e | df]; try discriminate Hup.
  destruct (List.filter _ required_columns); [| discriminate Hup].
  destruct (iterrows rt py_float (rows df) _) as [e | t] eqn:Hloop;
    [discriminate Hup |].
  injection Hup as <-. cbn [results] in Hin.
  destruct (iterrows_tally rt py_float (rows df) _ t Hloop)
    as (_ & _ & _ & new & Hnew & Hlen & Hnth).
  rewrite Hnew in Hin. simpl in Hin.
  apply list_elem_of_In, list_elem_of_lookup in Hin. destruct Hin as [j Hj].
  assert (Hrow : is_Some (rows df !! j)).
  { apply lookup_lt_is_Some. rewrite <- Hlen. apply (lookup_lt_Some _ _ _ Hj). }
  destruct Hrow as [[index row] Hrow].
  destruct (Hnth j index row Hrow) as (number & _ & Hnew_j).
  rewrite Hnew_j in Hj.
  injection Hj as Hentry. unfold entry_of in Hentry.
  destruct (parse_row rt py_float row) as [e | request'] eqn:Hparse;
    [discriminate Hentry |].
  injection Hentry as _ -> <- <- <-.
  split; [| split; [| repeat split]].
  - unfold parse_row, bind in Hparse.
    repeat match type of Hparse with
           | match ?x with _ => _ end = _ => destruct x; try discriminate Hparse
           end.
    all: unfold make_request in Hparse;
      repeat match type of Hparse with
             | match ?x with _ => _ end = _ =>
                 destruct x eqn:?; try discriminate Hparse
             end;
      injection Hparse as <-; cbn [cost_price];
      match goal with
      | H : gt_0 _ = Some ?q |- (0 < ?q)%Q =>
          unfold gt_0 in H;
          repeat match type of H with
                 | match ?x with _ => _ end = _ => destruct x; try discriminate H
                 end;
          injection H as <-; assumption
      end.
  - intros c Hc. unfold parse_row, bind in Hparse.
    repeat match type of Hparse with
           | match ?x with _ => _ end = _ => destruct x; try discriminate Hparse
           end.
    all: unfold make_request in Hparse;
      repeat match type of Hparse with
             | match ?x with _ => _ end = _ =>
                 destruct x eqn:?; try discriminate Hparse
             end;
      injection Hparse as <-; cbn [competitor_price] in Hc;
      try discriminate Hc; injection Hc as <-;
      match goal with
      | H : gt_0 _ = Some ?q |- (0 < ?q)%Q =>
          unfold gt_0 in H;
          repeat match type of H with
                 | match ?x with _ => _ end = _ => destruct x; try discriminate H
                 end;
          injection H as <-; assumption
      end.
Qed.

End PersistingRecommendations.

Section PersistingExamples.
Import Models Router.

Lemma csv_batch_stores_one_document_per_success_witness :
  exists response stored,
    upload_csv Scenario.unreachable Scenario.float_of_digits "products.csv"
      (Frame Scenario.table) = inr response
    /\ Z.of_nat (length ["65f0a1b2c3d4e5f601234567"; "65f0a1b2c3d4e5f601234568"])
       = successful_predictions response
    /\ Db.database
         (snd (upload_csv_and_save Scenario.unreachable Scenario.float_of_digits
                 (fun _ => "2023-11-14T22:13:20")
                 (Db.InsertedMany ["65f0a1b2c3d4e5f601234567";
                                   "65f0a1b2c3d4e5f601234568"])
                 Scenario.connected Scenario.user "products.csv"
                 (Frame Scenario.table)))
       = Some stored
    /\ length stored = 2%nat.
Proof.
  destruct (upload_csv Scenario.unreachable Scenario.float_of_digits "products.csv"
              (Frame Scenario.table)) as [err | response] eqn:Hup;
    [vm_compute in Hup; discriminate Hup |].
  assert (Hok : Z.of_nat (length ["65f0a1b2c3d4e5f601234567";
                                  "65f0a1b2c3d4e5f601234568"]%string)
                = successful_predictions response).
  { pose proof Hup as H. vm_compute in H. injection H as <-. reflexivity. }
  destruct (csv_batch_stores_one_document_per_success Scenario.unreachable
              Scenario.float_of_digits (fun _ => "2023-11-14T22:13:20"%string)
              ["65f0a1b2c3d4e5f601234567"; "65f0a1b2c3d4e5f601234568"]%string
              [] ∅ Scenario.user "products.csv" Scenario.table response Hup Hok)
    as (stored & Hdb & Hlen & _).
  exists response, stored. split; [reflexivity |]. split; [exact Hok |].
  split; [exact Hdb |]. apply Nat2Z.inj. rewrite Hlen, <- Hok. reflexivity.
Defined.

Lemma missing_columns_are_a_server_error_witness :
  endswith "products.csv" ".csv" = true
  /\ In "season"%string required_columns
  /\ ~ In "season"%string (columns Scenario.table_without_season)
  /\ exists http_error,
       upload_csv Scenario.unreachable Scenario.float_of_digits "products.csv"
         (Frame Scenario.table_without_season) = inl http_error
       /\ status_code http_error = 500%Z.
Proof.
  assert (Hname : endswith "products.csv" ".csv" = true) by reflexivity.
  assert (Hreq : In "season"%string required_columns)
    by (right; right; left; reflexivity).
  assert (Hmiss : ~ In "season"%string (columns Scenario.table_without_season))
    by (intros [H | [H | [H | []]]]; discriminate H).
  split; [exact Hname | split; [exact Hreq | split; [exact Hmiss |]]].
  destruct (missing_columns_are_a_server_error Scenario.unreachable
              Scenario.float_of_digits "products.csv" Scenario.table_without_season
              "season" Hname Hreq Hmiss) as (http_error & Hup & Hcode & _).
  exists http_error. split; [exact Hup | exact Hcode].
Defined.

Lemma successful_entries_are_valid_witness :
  exists response,
    upload_csv Scenario.unreachable Scenario.float_of_digits "products.csv"
      (Frame Scenario.table) = inr response
    /\ In (Success 3 (Scenario.request 20) 28.00%Q
             "Emergency fallback pricing due to API error: 503 Service Unavailable. Applied 40.0% markup."
             (Some 0.5%Q))
         (results response)
    /\ (0 < cost_price (Scenario.request 20))%Q.
Proof.
  destruct (upload_csv Scenario.unreachable Scenario.float_of_digits "products.csv"
              (Frame Scenario.table)) as [err | response] eqn:Hup;
    [vm_compute in Hup; discriminate Hup |].
  assert (Hin : In (Success 3 (Scenario.request 20) 28.00%Q
                      "Emergency fallback pricing due to API error: 503 Service Unavailable. Applied 40.0% markup."
                      (Some 0.5%Q))
                   (results response)).
  { pose proof Hup as H. vm_compute in H. injection H as <-.
    right. right. left. reflexivity. }
  exists response. split; [reflexivity |]. split; [exact Hin |].
  destruct (successful_entries_are_valid Scenario.unreachable
              Scenario.float_of_digits "products.csv" (Frame Scenario.table)
              response 3 (Scenario.request 20) 28.00%Q _ _ Hup Hin) as [Hpos _].
  exact Hpos.
Defined.

End PersistingExamples.

(** ** The cache of exchange rates *)

Section RateCache.
Import Currency.
Local Open Scope Q_scope.

(** X23.  Rates fetched with status 200 are served from the cache for one
    hour: a later call for the same base before the hour is over returns
    the same rates and requests nothing, whatever the rate service would
    answer then; a call from the hour on requests the URL again. *)
Theorem fetched_rates_are_cached_for_an_hour (http_get http_get' : string -> fetch)
    (now now' : Z) (self : Service) (base_currency : string)
    (rates : gmap string Q) :
  cached now self ("rates_" +:+ base_currency) = None ->
  http_get (base_url +:+ "/" +:+ base_currency) = Status 200 (inr (Some rates)) ->
  let first := get_exchange_rates http_get now self base_currency in
  let second := get_exchange_rates http_get' now' (snd first) base_currency in
  fst first = rates
  /\ requested (snd first)
     = (requested self ++ [base_url +:+ "/" +:+ base_currency])%list
  /\ ((now' < now + 3600)%Z -> second = (rates, snd first))
  /\ ((now + 3600 <= now')%Z ->
      requested (snd second)
      = (requested (snd first) ++ [base_url +:+ "/" +:+ base_currency])%list).
Proof.
  intros Hcache Hget first second.
  assert (Hfirst : first
                   = (rates,
                      {| cache := <["rates_" +:+ base_currency := rates]> (cache self);
                         cache_expiry :=
                           <["rates_" +:+ base_currency := (now + cache_duration)%Z]>
                             (cache_expiry self);
                         requested :=
                           (requested self ++ [base_url +:+ "/" +:+ base_currency])%list |})).
  { subst first. unfold get_exchange_rates. rewrite Hcache, Hget. reflexivity. }
  subst second. rewrite Hfirst. cbn [fst snd requested].
  split; [reflexivity | split; [reflexivity |]].
  unfold get_exchange_rates, cached. cbn [cache cache_expiry requested].
  rewrite !lookup_insert_eq. unfold cache_duration. split.
  - intros Hsoon. apply Z.ltb_lt in Hsoon. rewrite Hsoon. reflexivity.
  - intros Hlate. apply Z.ltb_ge in Hlate. rewrite Hlate.
    destruct (http_get' (base_url +:+ "/" +:+ base_currency)) as [e | code body];
      [reflexivity |].
    destruct (code =? 200)%Z; [| reflexivity].
    destruct body; reflexivity.
Qed.

Lemma fallback_rates_are_not_cached_state (http_get : string -> fetch) (now : Z)
    (self : Service) (base_currency : string) :
  cached now self ("rates_" +:+ base_currency) = None ->
  fetch_failed (http_get (base_url +:+ "/" +:+ base_currency)) ->
  cache (snd (get_exchange_rates http_get now self base_currency)) = cache self
  /\ cache_expiry (snd (get_exchange_rates http_get now self base_currency))
     = cache_expiry self.
Proof.
  intros Hcache Hfail. unfold get_exchange_rates. rewrite Hcache.
  destruct (http_get (base_url +:+ "/" +:+ base_currency)) as [e | code body];
    [split; reflexivity |].
  destruct (code =? 200)%Z eqn:Hcode; [| split; reflexivity].
  destruct Hfail as [Hne | [e ->]]; [| split; reflexivity].
  apply Z.eqb_eq in Hcode. contradiction.
Qed.

(** X24.  Fallback rates are not cached: after a failed fetch the cache and
    its expiry times are as before, so what the cache answers at any later
    time is what it would have answered without the call, and the URL has
    been requested. *)
Theorem fallback_rates_are_not_cached (http_get : string -> fetch) (now : Z)
    (self : Service) (base_currency : string) :
  cached now self ("rates_" +:+ base_currency) = None ->
  fetch_failed (http_get (base_url +:+ "/" +:+ base_currency)) ->
  let after := snd (get_exchange_rates http_get now self base_currency) in
  cache after = cache self
  /\ cache_expiry after = cache_expiry self
  /\ requested after
     = (requested self ++ [base_url +:+ "/" +:+ base_currency])%list
  /\ forall now' key, cached now' after key = cached now' self key.
Proof.
  intros Hcache Hfail after.
  assert (Hafter : after
                   = {| cache := cache self; cache_expiry := cache_expiry self;
                        requested :=
                          (requested self ++ [base_url +:+ "/" +:+ base_currency])%list |}).
  { subst after. unfold get_exchange_rates. rewrite Hcache.
    destruct (http_get (base_url +:+ "/" +:+ base_currency)) as [e | code body];
      [reflexivity |].
    destruct (code =? 200)%Z eqn:Hcode; [| reflexivity].
    destruct Hfail as [Hne | [e ->]]; [| reflexivity].
    apply Z.eqb_eq in Hcode. contradiction. }
  rewrite Hafter. repeat split.
Qed.

Lemma rates_key_inj (a b : string) :
  a <> b -> ("rates_" +:+ a)%string <> ("rates_" +:+ b)%string.
Proof. intros Hne H. apply Hne. apply (append_inv_head "rates_"). exact H. Qed.

(** X25.  The [source] entry of a conversion tells whether the cache has an
    entry under the code as the caller wrote it, not where the rates came
    from: a conversion from a code that is not in upper case, done with
    rates just fetched with status 200, is labelled [fallback]. *)
Theorem live_rates_are_labelled_fallback (http_get : string -> fetch) (now : Z)
    (self : Service) (amount rate : Q) (from_currency to_currency : string)
    (rates : gmap string Q) :
  Py.upper from_currency <> Py.upper to_currency ->
  from_currency <> Py.upper from_currency ->
  cache self !! ("rates_" +:+ from_currency)%string = None ->
  cached now self ("rates_" +:+ Py.upper from_currency) = None ->
  http_get (base_url +:+ "/" +:+ Py.upper from_currency)
  = Status 200 (inr (Some rates)) ->
  rates !! Py.upper to_currency = Some rate ->
  fst (convert_currency http_get now self amount from_currency to_currency)
  = (Py.round2 (Py.mul amount rate),
     <["source"%string := Text "fallback"]>
       {[ (from_currency +:+ "_to_" +:+ to_currency)%string := Rate rate ]}).
Proof.
  intros Hdiff Hcase Hnone Hcache Hget Hrate. unfold convert_currency.
  apply String.eqb_neq in Hdiff. rewrite Hdiff.
  unfold get_exchange_rates. rewrite Hcache, Hget. simpl.
  rewrite Hrate. cbn [cache fst].
  rewrite lookup_insert_ne by (apply rates_key_inj; congruence).
  rewrite Hnone.
  destruct (decide (is_Some None)) as [[x Hx] |]; [discriminate Hx | reflexivity].
Qed.

(** X26.  Conversely, a conversion done with the fallback rates, the fetch
    having failed, is labelled [live_api] when the cache still holds an
    expired entry under the code as written. *)
Theorem fallback_rates_are_labelled_live (http_get : string -> fetch) (now : Z)
    (self : Service) (amount rate : Q) (from_currency to_currency : string)
    (old : gmap string Q) :
  Py.upper from_currency <> Py.upper to_currency ->
  cache self !! ("rates_" +:+ from_currency)%string = Some old ->
  cached now self ("rates_" +:+ Py.upper from_currency) = None ->
  fetch_failed (http_get (base_url +:+ "/" +:+ Py.upper from_currency)) ->
  _get_fallback_rates (Py.upper from_currency) !! Py.upper to_currency = Some rate ->
  fst (convert_currency http_get now self amount from_currency to_currency)
  = (Py.round2 (Py.mul amount rate),
     <["source"%string := Text "live_api"]>
       {[ (from_currency +:+ "_to_" +:+ to_currency)%string := Rate rate ]}).
Proof.
  intros Hdiff Hold Hcache Hfail Hrate. unfold convert_currency.
  apply String.eqb_neq in Hdiff. rewrite Hdiff.
  pose proof (failed_fetch_uses_fallback http_get now self _ Hcache Hfail) as Hrates.
  destruct (fallback_rates_are_not_cached_state http_get now self _ Hcache Hfail)
    as [Hsame _].
  destruct (get_exchange_rates http_get now self (Py.upper from_currency))
    as [rates self'].
  cbn [fst snd] in Hrates, Hsame. subst rates. rewrite Hrate, Hsame, Hold.
  destruct (decide (is_Some (Some old))) as [| Hno]; [reflexivity |].
  contradiction Hno. eexists. reflexivity.
Qed.

End RateCache.

(** ** Converting during an outage *)

Section CrossRates.
Import Currency.
Local Open Scope Q_scope.

Lemma prefix_of_append (p s : string) : String.prefix p (p +:+ s) = true.
Proof.
  induction p as [| c p IH]; [destruct s; reflexivity |].
  change (String c p +:+ s)%string with (String c (p +:+ s)).
  cbn [String.prefix]. rewrite IH.
  destruct (ascii_dec c c); [reflexivity | contradiction].
Qed.

Lemma is_substring_unfold (sub s : string) :
  Py.is_substring sub s
  = String.prefix sub s
    || match s with
       | EmptyString => false
       | String _ s' => Py.is_substring sub s'
       end.
Proof. destruct s; reflexivity. Qed.

Lemma is_substring_middle (sub a b : string) :
  Py.is_substring sub (a +:+ sub +:+ b) = true.
Proof.
  induction a as [| c a IH].
  - change ("" +:+ sub +:+ b)%string with (sub +:+ b)%string.
    rewrite is_substring_unfold, prefix_of_append. reflexivity.
  - change (String c a +:+ sub +:+ b)%string with (String c (a +:+ sub +:+ b)).
    rewrite is_substring_unfold, IH. apply orb_true_r.
Qed.

Lemma fallback_cross_rate (base currency : string) (base_rate rate : Q) :
  fallback_rates !! base = Some base_rate ->
  fallback_rates !! currency = Some rate ->
  _get_fallback_rates base !! currency = Some (cross_rate base base_rate rate).
Proof.
  intros Hbase Hrate. unfold _get_fallback_rates, cross_rate.
  destruct (String.eqb base "USD"); [exact Hrate |].
  rewrite Hbase. simpl. rewrite lookup_fmap, Hrate. reflexivity.
Qed.

Variable http_get : string -> fetch.
Variable now : Z.

(** X28.  During an outage a conversion between two different currencies
    of the fallback table succeeds: the dictionary returned has no [error]
    entry, the rate it reports is the USD rate of the target for the base
    USD and the quotient of the two USD rates for another base, and the
    amount returned is the float product of the amount and that rate,
    rounded to two decimals. *)
Theorem outage_conversion_uses_cross_rate (self : Service) (amount : Q)
    (from_currency to_currency : string) (from_rate to_rate : Q) :
  Py.upper from_currency <> Py.upper to_currency ->
  fallback_rates !! Py.upper from_currency = Some from_rate ->
  fallback_rates !! Py.upper to_currency = Some to_rate ->
  cached now self ("rates_" +:+ Py.upper from_currency) = None ->
  fetch_failed (http_get (base_url +:+ "/" +:+ Py.upper from_currency)) ->
  let out := fst (convert_currency http_get now self amount from_currency
                    to_currency) in
  let cross := cross_rate (Py.upper from_currency) from_rate to_rate in
  fst out = Py.round2 (Py.mul amount cross)
  /\ snd out !! "error"%string = None
  /\ snd out !! (from_currency +:+ "_to_" +:+ to_currency)%string
     = Some (Rate cross).
Proof.
  intros Hdiff Hfrom Hto Hcache Hfail out cross.
  pose proof (fallback_cross_rate _ _ _ _ Hfrom Hto) as Hcross. fold cross in Hcross.
  assert (Hout : out = (Py.round2 (Py.mul amount cross),
                        <["source"%string :=
                            Text (if decide (is_Some (cache self
                                                      !! ("rates_" +:+ from_currency)%string))
                                  then "live_api" else "fallback")]>
                          {[ (from_currency +:+ "_to_" +:+ to_currency)%string
                             := Rate cross ]})).
  { subst out. unfold convert_currency.
    apply String.eqb_neq in Hdiff. rewrite Hdiff.
    pose proof (failed_fetch_uses_fallback http_get now self _ Hcache Hfail) as Hrates.
    destruct (fallback_rates_are_not_cached_state http_get now self _ Hcache Hfail)
      as [Hsame _].
    destruct (get_exchange_rates http_get now self (Py.upper from_currency))
      as [rates self'].
    cbn [fst snd] in Hrates, Hsame. subst rates. rewrite Hcross, Hsame.
    reflexivity. }
  rewrite Hout. cbn [fst snd].
  assert (Hkey : ("source"%string : string)
                 <> (from_currency +:+ "_to_" +:+ to_currency)%string).
  { intros H. apply (f_equal (Py.is_substring "_to_")) in H.
    rewrite (is_substring_middle "_to_" from_currency to_currency) in H.
    discriminate H. }
  split; [reflexivity | split].
  - rewrite lookup_insert_ne by discriminate.
    apply lookup_singleton_ne. intros H.
    apply (f_equal (Py.is_substring "_to_")) in H.
    rewrite (is_substring_middle "_to_" from_currency to_currency) in H.
    discriminate H.
  - rewrite lookup_insert_ne by exact Hkey.
    apply lookup_singleton_eq.
Qed.

End CrossRates.

Section RateExamples.
Import Currency.
Local Open Scope Q_scope.

Lemma fetched_rates_are_cached_for_an_hour_witness :
  cached 0 Scenario.fresh "rates_USD" = None
  /\ Scenario.live (base_url +:+ "/USD") = Status 200 (inr (Some Scenario.live_rates))
  /\ get_exchange_rates Scenario.offline 3599
       (snd (get_exchange_rates Scenario.live 0 Scenario.fresh "USD")) "USD"
     = (Scenario.live_rates, snd (get_exchange_rates Scenario.live 0 Scenario.fresh "USD"))
  /\ requested
       (snd (get_exchange_rates Scenario.offline 3600
               (snd (get_exchange_rates Scenario.live 0 Scenario.fresh "USD")) "USD"))
     = [(base_url +:+ "/USD")%string; (base_url +:+ "/USD")%string].
Proof.
  assert (Hcache : cached 0 Scenario.fresh "rates_USD" = None) by reflexivity.
  assert (Hget : Scenario.live (base_url +:+ "/USD")
                 = Status 200 (inr (Some Scenario.live_rates))) by reflexivity.
  split; [exact Hcache | split; [exact Hget |]].
  split.
  - destruct (fetched_rates_are_cached_for_an_hour Scenario.live Scenario.offline
                0 3599 Scenario.fresh "USD" Scenario.live_rates Hcache Hget)
      as (_ & _ & Hsoon & _).
    apply Hsoon. reflexivity.
  - destruct (fetched_rates_are_cached_for_an_hour Scenario.live Scenario.offline
                0 3600 Scenario.fresh "USD" Scenario.live_rates Hcache Hget)
      as (_ & Hfirst & _ & Hlate).
    rewrite Hlate by discriminate. rewrite Hfirst. reflexivity.
Defined.

Lemma fallback_rates_are_not_cached_witness :
  cached 0 Scenario.fresh "rates_EUR" = None
  /\ fetch_failed (Scenario.offline (base_url +:+ "/EUR"))
  /\ cache (snd (get_exchange_rates Scenario.offline 0 Scenario.fresh "EUR")) = ∅
  /\ requested (snd (get_exchange_rates Scenario.offline 0 Scenario.fresh "EUR"))
     = [(base_url +:+ "/EUR")%string].
Proof.
  assert (Hcache : cached 0 Scenario.fresh "rates_EUR" = None) by reflexivity.
  assert (Hfail : fetch_failed (Scenario.offline (base_url +:+ "/EUR"))) by exact I.
  split; [exact Hcache | split; [exact Hfail |]].
  destruct (fallback_rates_are_not_cached Scenario.offline 0 Scenario.fresh "EUR"
              Hcache Hfail) as (Hsame & _ & Hreq & _).
  split; [exact Hsame | exact Hreq].
Defined.

Lemma live_rates_are_labelled_fallback_witness :
  Py.upper "usd" <> Py.upper "eur"
  /\ "usd"%string <> Py.upper "usd"
  /\ fst (convert_currency Scenario.live 0 Scenario.fresh 10 "usd" "eur")
     = (Py.round2 (Py.mul 10 0.9),
        <["source"%string := Text "fallback"]>
          {[ "usd_to_eur"%string := Rate 0.9 ]}).
Proof.
  split; [discriminate | split; [discriminate |]].
  apply (live_rates_are_labelled_fallback Scenario.live 0 Scenario.fresh 10 0.9
           "usd" "eur" Scenario.live_rates);
    try discriminate; reflexivity.
Defined.

Lemma fallback_rates_are_labelled_live_witness :
  cache Scenario.stale !! "rates_USD"%string = Some Scenario.live_rates
  /\ cached 200 Scenario.stale "rates_USD" = None
  /\ fetch_failed (Scenario.offline (base_url +:+ "/USD"))
  /\ fst (convert_currency Scenario.offline 200 Scenario.stale 10 "USD" "EUR")
     = (Py.round2 (Py.mul 10 0.85),
        <["source"%string := Text "live_api"]>
          {[ "USD_to_EUR"%string := Rate 0.85 ]}).
Proof.
  assert (Hold : cache Scenario.stale !! "rates_USD"%string = Some Scenario.live_rates)
    by reflexivity.
  assert (Hcache : cached 200 Scenario.stale "rates_USD" = None) by reflexivity.
  assert (Hfail : fetch_failed (Scenario.offline (base_url +:+ "/USD"))) by exact I.
  split; [exact Hold | split; [exact Hcache | split; [exact Hfail |]]].
  apply (fallback_rates_are_labelled_live Scenario.offline 200 Scenario.stale 10
           0.85 "USD" "EUR" Scenario.live_rates);
    try discriminate; try assumption; reflexivity.
Defined.

Lemma outage_conversion_uses_cross_rate_witness :
  Py.upper "eur" <> Py.upper "gbp"
  /\ cached 0 Scenario.fresh "rates_EUR" = None
  /\ fetch_failed (Scenario.offline (base_url +:+ "/EUR"))
  /\ fst (fst (convert_currency Scenario.offline 0 Scenario.fresh 100 "eur" "gbp"))
     = Py.round2 (Py.mul 100 (Py.div 0.73 0.85))
  /\ fst (fst (convert_currency Scenario.offline 0 Scenario.fresh 100 "eur" "gbp"))
     == 85.88.
Proof.
  assert (Hdiff : Py.upper "eur" <> Py.upper "gbp") by discriminate.
  assert (Hcache : cached 0 Scenario.fresh "rates_EUR" = None) by reflexivity.
  assert (Hfail : fetch_failed (Scenario.offline (base_url +:+ "/EUR"))) by exact I.
  split; [exact Hdiff | split; [exact Hcache | split; [exact Hfail |]]].
  destruct (outage_conversion_uses_cross_rate Scenario.offline 0 Scenario.fresh 100
              "eur" "gbp" 0.85 0.73 Hdiff eq_refl eq_refl Hcache Hfail)
    as (Hamount & _).
  split; [exact Hamount | rewrite Hamount; vm_compute; reflexivity].
Defined.

(** In floats the fallback rates there and back do not multiply to 1:
    from USD to GBP and back the product is below 1. *)
Example round_trip_rate_is_below_1 :
  exists there back,
    _get_fallback_rates "USD" !! "GBP"%string = Some there
    /\ _get_fallback_rates "GBP" !! "USD"%string = Some back
    /\ Py.mul there back < 1.
Proof. eexists _, _. split; [reflexivity | split; [reflexivity |]]. vm_compute. reflexivity. Qed.

(** The conversion of 0.1 USD to euros during an outage. *)
Example ten_cents_in_euros :
  fst (fst (convert_currency Scenario.offline 0 Scenario.fresh 0.1 "USD" "EUR")) == 0.09.
Proof. vm_compute. reflexivity. Qed.

End RateExamples.

(** ** Two views of one history *)

Section SplitHistory.
Import Db.

(** X29.  A record that a save put in the local store because the insert
    raised is not in a listing served by the primary store: with the
    primary connected, whatever the cursor yields of a collection whose
    ids are object ids, no entry of the listing has the id the save
    returned, in the backends as the save left them. *)
Theorem fallback_save_is_absent_from_primary_listing (clk : LocalStorage.Clock)
    (e : Py.exn) (w : LocalStorage.write) (collection : list (string * Document))
    (files : gmap string LocalStorage.file) (user : Models.User)
    (data : gmap string json) (documents : list (string * Document))
    (limit skip : Z) :
  (forall d, In d documents -> In d collection) ->
  (forall d, In d collection -> is_valid (fst d) = true) ->
  let st := {| database := Some collection; disk := files |} in
  let saved := save_price_suggestion clk (InsertRaises e) w st user data in
  database (snd saved) = Some collection
  /\ forall suggestion,
       In suggestion (get_user_suggestions (Found documents) (snd saved) user
                        limit skip) ->
       LocalStorage._id suggestion <> fst saved.
Proof.
  intros Hsub Hvalid st saved.
  assert (Hsaved : saved
                   = (fst (LocalStorage.save_price_suggestion clk w files user data),
                      {| database := Some collection;
                         disk := snd (LocalStorage.save_price_suggestion clk w files
                                        user data) |})).
  { subst saved st. unfold save_price_suggestion. simpl.
    destruct (LocalStorage.save_price_suggestion clk w files user data); reflexivity. }
  rewrite Hsaved. cbn [fst snd database]. split; [reflexivity |].
  intros suggestion Hin Hid.
  unfold get_user_suggestions in Hin. cbn [database] in Hin.
  apply in_map_iff in Hin. destruct Hin as (d & <- & Hd).
  cbn [to_suggestion LocalStorage._id] in Hid.
  pose proof (Hvalid d (Hsub d Hd)) as Hok.
  rewrite Hid, local_id_is_no_object_id in Hok. discriminate Hok.
Qed.

End SplitHistory.

Section ListingBounds.
Import LocalStorage.

(** X30.  A negative [limit] is not refused by the local listing: from the
    start of the list it counts from the end, so the page holds every
    record but the last [-limit] of the sorted list, the oldest ones. *)
Theorem negative_limit_drops_the_oldest (disk : gmap string file)
    (user : Models.User) (limit : Z) :
  (limit < 0)%Z ->
  let sorted := sort_newest_first (load_user_data disk (Models.sub user)) in
  get_user_suggestions disk user limit 0
  = take (length sorted - Z.to_nat (- limit)) sorted.
Proof.
  intros Hneg sorted. unfold get_user_suggestions, Py.slice, Py.slice_index.
  fold sorted. change (0 <? 0)%Z with false. cbv iota.
  rewrite Z.add_0_l.
  destruct (limit <? 0)%Z eqn:Hlt; [| apply Z.ltb_ge in Hlt; lia].
  rewrite (Z.min_l 0) by lia. rewrite Z.sub_0_r. simpl drop.
  f_equal. lia.
Qed.

End ListingBounds.

Section SplitHistoryExamples.
Import Db.

Lemma fallback_save_is_absent_from_primary_listing_witness :
  (forall d, In d [(Scenario.oid, Scenario.document)]
             -> In d [(Scenario.oid, Scenario.document)])
  /\ (forall d, In d [(Scenario.oid, Scenario.document)] -> is_valid (fst d) = true)
  /\ map LocalStorage._id
       (get_user_suggestions (Found [(Scenario.oid, Scenario.document)])
          (snd (save_price_suggestion Scenario.clock
                  (InsertRaises (Py.Raise Py.RuntimeError "connection reset"))
                  LocalStorage.Written
                  {| database := Some [(Scenario.oid, Scenario.document)];
                     disk := ∅ |}
                  Scenario.user (Scenario.suggestion_data (JNum 14))))
          Scenario.user 50 0)
     = [Scenario.oid]
  /\ fst (save_price_suggestion Scenario.clock
            (InsertRaises (Py.Raise Py.RuntimeError "connection reset"))
            LocalStorage.Written
            {| database := Some [(Scenario.oid, Scenario.document)]; disk := ∅ |}
            Scenario.user (Scenario.suggestion_data (JNum 14)))
     <> Scenario.oid.
Proof.
  assert (Hsub : forall d, In d [(Scenario.oid, Scenario.document)]
                           -> In d [(Scenario.oid, Scenario.document)])
    by (intros d H; exact H).
  assert (Hvalid : forall d, In d [(Scenario.oid, Scenario.document)]
                             -> is_valid (fst d) = true)
    by (intros d [<- | []]; reflexivity).
  split; [exact Hsub | split; [exact Hvalid | split; [reflexivity |]]].
  destruct (fallback_save_is_absent_from_primary_listing Scenario.clock
              (Py.Raise Py.RuntimeError "connection reset") LocalStorage.Written
              [(Scenario.oid, Scenario.document)] ∅ Scenario.user
              (Scenario.suggestion_data (JNum 14))
              [(Scenario.oid, Scenario.document)] 50 0 Hsub Hvalid)
    as [_ Habsent].
  intros Hid. apply (Habsent (to_suggestion (Scenario.oid, Scenario.document))).
  - left. reflexivity.
  - symmetry. exact Hid.
Defined.

Lemma negative_limit_drops_the_oldest_witness :
  (-1 < 0)%Z
  /\ length (LocalStorage.get_user_suggestions
               (Scenario.disk_with [JNum 10; JNum 20; JNum 30]) Scenario.user (-1) 0)
     = 2%nat.
Proof.
  split; [reflexivity |].
  rewrite (negative_limit_drops_the_oldest
             (Scenario.disk_with [JNum 10; JNum 20; JNum 30]) Scenario.user (-1)
             eq_refl).
  vm_compute. reflexivity.
Defined.

End SplitHistoryExamples.
